(** * OwLite settings store: a shallow embedding of
    [owlite_core/owlite_settings.py]

    The class [OwLiteSettings] keeps four independent files under the cache
    directory ([tokens], [devices], [connected], [urls]).  Every getter
    re-reads its file, every setter overwrites or deletes it.  The file
    system, the warning log and Python exceptions are threaded explicitly
    through a small state-and-exception monad. *)

From Stdlib Require Import String Ascii List ZArith Bool Arith Lia.
Import ListNotations.
Local Open Scope string_scope.
Local Open Scope list_scope.

(* ================================================================== *)
(** * Domain records *)

(** Modelled from the spec: the dataclass [Tokens] imported from the
    package ("access/refresh credential pair"); its declaration is not part
    of the sources. *)
Module Tokens.
Record t := mk { access_token : string; refresh_token : string }.
End Tokens.

(** Modelled from the spec: the dataclass [DeviceManager]
    ("{name: string (unique key), url: string (endpoint address)}"), built
    in the source as [DeviceManager(name=key, url=value)]. *)
Module DeviceManager.
Record t := mk { name : string; url : string }.
End DeviceManager.

(** Modelled from the spec: the dataclass [Device] ("references a
    DeviceManager's name/url plus a selected device identifier within that
    manager"). *)
Module Device.
Record t := mk { name : string; manager : DeviceManager.t }.
End Device.

(** Modelled from the spec: the dataclass [BaseURLs] ("front-end, main API,
    device-orchestration service" and "a named field for the synthetic NEST
    endpoint address"). *)
Module BaseURLs.
Record t := mk { FRONT : string; MAIN : string; DOVE : string; NEST : string }.
End BaseURLs.

(* ================================================================== *)
(** * Decoded Python values *)

(** What [json.loads(..., cls=ClassDecoder)] can hand back: plain JSON
    values (floats left out) and the four tagged records.  A [dict] is an
    association list in insertion order, as Python keeps it. *)
#[warnings="-register-all"]
Inductive pyval : Type :=
| PyNone
| PyBool (b : bool)
| PyInt (z : Z)
| PyStr (s : string)
| PyList (l : list pyval)
| PyDict (d : list (string * pyval))
| PyTokens (t : Tokens.t)
| PyDeviceManager (m : DeviceManager.t)
| PyDevice (d : Device.t)
| PyBaseURLs (b : BaseURLs.t).

Definition pydict := list (string * pyval).

(** Induction on values that reaches inside lists and dicts. *)
Section PyvalInd.
Variable P : pyval -> Prop.
Hypothesis HNone : P PyNone.
Hypothesis HBool : forall b, P (PyBool b).
Hypothesis HInt : forall z, P (PyInt z).
Hypothesis HStr : forall s, P (PyStr s).
Hypothesis HList : forall l, Forall P l -> P (PyList l).
Hypothesis HDict : forall d, Forall (fun kv => P (snd kv)) d -> P (PyDict d).
Hypothesis HTokens : forall t, P (PyTokens t).
Hypothesis HManager : forall m, P (PyDeviceManager m).
Hypothesis HDevice : forall d, P (PyDevice d).
Hypothesis HUrls : forall b, P (PyBaseURLs b).

Fixpoint pyval_nested_ind (v : pyval) : P v :=
  match v with
  | PyNone => HNone
  | PyBool b => HBool b
  | PyInt z => HInt z
  | PyStr s => HStr s
  | PyList l =>
      HList l ((fix all (l : list pyval) : Forall P l :=
                  match l with
                  | [] => Forall_nil _
                  | x :: r => Forall_cons x (pyval_nested_ind x) (all r)
                  end) l)
  | PyDict d =>
      HDict d ((fix all (d : list (string * pyval)) : Forall (fun kv => P (snd kv)) d :=
                  match d with
                  | [] => Forall_nil _
                  | (k, x) :: r =>
                      Forall_cons (P := fun kv => P (snd kv)) (k, x)
                                  (pyval_nested_ind x) (all r)
                  end) d)
  | PyTokens t => HTokens t
  | PyDeviceManager m => HManager m
  | PyDevice d => HDevice d
  | PyBaseURLs b => HUrls b
  end.
End PyvalInd.

(** Python exceptions the store can raise. *)
Inductive exn : Type :=
| JSONDecodeError
| AssertionError
| KeyError (k : string)
| AttributeError
| TypeError.

Inductive result (A : Type) : Type :=
| Ok (a : A)
| Raise (e : exn).
Arguments Ok {A} a.
Arguments Raise {A} e.

(** [isinstance(value, str)] *)
Definition isinstance_str (v : pyval) : bool :=
  match v with PyStr _ => true | _ => false end.

(** [isinstance(device, Device)] *)
Definition isinstance_Device (v : pyval) : bool :=
  match v with PyDevice _ => true | _ => false end.

(* ------------------------------------------------------------------ *)
(** ** Dictionary operations

    Keys of a Python dict are unique; on lists with unique keys [dict_pop]
    removes the one entry of the key. *)

(** [k in d] *)
Definition dict_mem (k : string) (d : pydict) : bool :=
  existsb (fun kv => fst kv =? k) d.

(** [d.get(k)] *)
Fixpoint dict_get (k : string) (d : pydict) : option pyval :=
  match d with
  | [] => None
  | (k', v) :: r => if k' =? k then Some v else dict_get k r
  end.

(** [d.pop(k, None)], keeping the dict *)
Definition dict_pop (k : string) (d : pydict) : pydict :=
  filter (fun kv => negb (fst kv =? k)) d.

(** [d.pop(k)]: raises [KeyError] when [k] is missing *)
Definition dict_pop_strict (k : string) (d : pydict) : result pydict :=
  if dict_mem k d then Ok (dict_pop k d) else Raise (KeyError k).

(** [d[k] = v]: overwrite in place, or append a new entry *)
Fixpoint dict_set (k : string) (v : pyval) (d : pydict) : pydict :=
  match d with
  | [] => [(k, v)]
  | (k', v') :: r => if k' =? k then (k, v) :: r else (k', v') :: dict_set k v r
  end.

(** [d1.update(d2)] *)
Definition dict_update (d1 d2 : pydict) : pydict :=
  fold_left (fun acc kv => dict_set (fst kv) (snd kv) acc) d2 d1.

(** [bool(d)] *)
Definition dict_truthy (d : pydict) : bool :=
  match d with [] => false | _ => true end.

Definition dict_keys (d : pydict) : list string := map fst d.

(* ================================================================== *)
(** * Files, effects and the monad *)

(** The four paths set up by [__init__]. *)
Inductive path : Type :=
| tokens_cache
| devices_cache
| connected_cache
| urls_cache.

(** Content of the cache directory: [None] is an absent file. *)
Record files : Type := mkFiles {
  f_tokens : option string;
  f_devices : option string;
  f_connected : option string;
  f_urls : option string
}.

Definition file (p : path) (fs : files) : option string :=
  match p with
  | tokens_cache => f_tokens fs
  | devices_cache => f_devices fs
  | connected_cache => f_connected fs
  | urls_cache => f_urls fs
  end.

Definition set_file (p : path) (c : option string) (fs : files) : files :=
  match p with
  | tokens_cache => mkFiles c (f_devices fs) (f_connected fs) (f_urls fs)
  | devices_cache => mkFiles (f_tokens fs) c (f_connected fs) (f_urls fs)
  | connected_cache => mkFiles (f_tokens fs) (f_devices fs) c (f_urls fs)
  | urls_cache => mkFiles (f_tokens fs) (f_devices fs) (f_connected fs) c
  end.

(** Observable effects, in the order they happen. *)
Inductive event : Type :=
| WriteText (p : path) (s : string)
| Unlink (p : path)
| Warning (msg : string).

Record world : Type := mkWorld {
  disk : files;
  trace : list event
}.

Definition M (A : Type) : Type := world -> world * result A.

Definition ret {A} (a : A) : M A := fun w => (w, Ok a).

Definition raise {A} (e : exn) : M A := fun w => (w, Raise e).

Definition bind {A B} (m : M A) (k : A -> M B) : M B :=
  fun w =>
    match m w with
    | (w', Ok a) => k a w'
    | (w', Raise e) => (w', Raise e)
    end.

Declare Scope py_scope.
Delimit Scope py_scope with py.
Notation "x <- m ;; k" := (bind m (fun x => k))
  (at level 100, m at next level, right associativity) : py_scope.
Notation "m ;; k" := (bind m (fun _ => k))
  (at level 100, right associativity) : py_scope.
Local Open Scope py_scope.

Definition lift {A} (r : result A) : M A := fun w => (w, r).

(** [assert cond], with assertions enabled *)
Definition assert_ (cond : bool) : M unit :=
  if cond then ret tt else raise AssertionError.

(** Modelled from the spec: [read_text(path)], imported from the package
    ("absent file -> None"; a present file yields its text). *)
Definition read_text (p : path) : M (option string) :=
  fun w => (w, Ok (file p (disk w))).

(** [path.write_text(s, encoding="utf-8")] *)
Definition write_text (p : path) (s : string) : M unit :=
  fun w => (mkWorld (set_file p (Some s) (disk w)) (trace w ++ [WriteText p s]), Ok tt).

(** [path.unlink(missing_ok=True)] *)
Definition unlink (p : path) : M unit :=
  fun w => (mkWorld (set_file p None (disk w)) (trace w ++ [Unlink p]), Ok tt).

(** [log.warning(msg)] *)
Definition log_warning (msg : string) : M unit :=
  fun w => (mkWorld (disk w) (trace w ++ [Warning msg]), Ok tt).

(** [not s] for a text [s] *)
Definition str_falsy (s : string) : bool := s =? "".

(* ================================================================== *)
(** * The collaborators imported from the package *)

(** Modelled from the spec: the tagged codec behind
    [json.dumps(..., cls=ClassEncoder)] and [json.loads(..., cls=ClassDecoder)]
    and the built-in default [BaseURLs()]; their code is not part of the
    sources, so the store is stated over any such collaborators.
    [json_loads] is [None] where Python raises [JSONDecodeError]. *)
Class Core : Type := {
  json_dumps : pyval -> string;
  json_loads : string -> option pyval;
  BaseURLs_default : BaseURLs.t
}.

(** "A tagged codec able to encode/decode all four domain types (and the
    legacy bare-string and bare-object shapes) such that decoding recovers
    the correct concrete type"; an encoding is never the empty text and the
    empty text decodes to nothing. *)
Record CoreLaws (C : Core) : Prop := {
  loads_dumps : forall v, json_loads (json_dumps v) = Some v;
  dumps_nonempty : forall v, json_dumps v <> "";
  loads_empty : json_loads "" = None
}.

(* ================================================================== *)
(** * class OwLiteSettings *)

Section OwLiteSettings.
Context {C : Core}.

Definition loads (s : string) : M pyval :=
  match json_loads s with
  | Some v => ret v
  | None => raise JSONDecodeError
  end.

(** [tokens] (getter) *)
Definition tokens : M pyval :=
  read_tokens <- read_text tokens_cache ;;
  match read_tokens with
  | None => ret PyNone
  | Some s => if str_falsy s then ret PyNone else loads s
  end.

(** [tokens] (setter); an instance of the dataclass is always truthy *)
Definition set_tokens (new_tokens : option Tokens.t) : M unit :=
  match new_tokens with
  | Some t => write_text tokens_cache (json_dumps (PyTokens t))
  | None => unlink tokens_cache
  end.

(** [base_url] (getter) *)
Definition base_url : M pyval :=
  base_urls <- read_text urls_cache ;;
  match base_urls with
  | None => ret (PyBaseURLs BaseURLs_default)
  | Some s => if str_falsy s then ret (PyBaseURLs BaseURLs_default) else loads s
  end.

(** [base_url] (setter) *)
Definition set_base_url (base_urls : BaseURLs.t) : M unit :=
  write_text urls_cache (json_dumps (PyBaseURLs base_urls)).

(** [v.NEST] *)
Definition getattr_NEST (v : pyval) : M string :=
  match v with
  | PyBaseURLs b => ret (BaseURLs.NEST b)
  | _ => raise AttributeError
  end.

(** The loop of [_backward_compatibility]: every bare string value becomes
    [DeviceManager(name=key, url=value)]. *)
Definition rebuild_entry (kv : string * pyval) : string * pyval :=
  match snd kv with
  | PyStr value => (fst kv, PyDeviceManager (DeviceManager.mk (fst kv) value))
  | _ => kv
  end.

(** The mapping [_backward_compatibility] writes and returns. *)
Definition migrate (d : pydict) : pydict :=
  map rebuild_entry (dict_pop "NEST" (dict_pop "DEFAULT" d)).

(** [managers._backward_compatibility]; [.pop] with two arguments is a
    [TypeError] on a list and an [AttributeError] on anything else that is
    not a dict. *)
Definition _backward_compatibility (cached_managers : pyval) : M pydict :=
  match cached_managers with
  | PyDict d =>
      let d := dict_pop "DEFAULT" d in
      let d := dict_pop "NEST" d in
      let d := map rebuild_entry d in
      write_text devices_cache (json_dumps (PyDict d)) ;;
      ret d
  | PyList _ => raise TypeError
  | _ => raise AttributeError
  end.

(** [managers] (getter) *)
Definition managers : M pydict :=
  urls <- base_url ;;
  nest <- getattr_NEST urls ;;
  let default_manager := DeviceManager.mk "NEST" nest in
  let registered_managers := [("NEST", PyDeviceManager default_manager)] in
  cache_content <- read_text devices_cache ;;
  match cache_content with
  | None => ret registered_managers
  | Some s =>
      cached_managers <- loads s ;;
      cached_managers <- _backward_compatibility cached_managers ;;
      assert_ (dict_truthy cached_managers) ;;
      ret (dict_update registered_managers cached_managers)
  end.

(** [add_manager] *)
Definition add_manager (manager : DeviceManager.t) : M unit :=
  manager_dict <- managers ;;
  let manager_dict :=
    dict_set (DeviceManager.name manager) (PyDeviceManager manager) manager_dict in
  manager_dict <- lift (dict_pop_strict "NEST" manager_dict) ;;
  write_text devices_cache (json_dumps (PyDict manager_dict)).

(** [remove_manager] *)
Definition remove_manager (name : string) : M unit :=
  manager_dict <- managers ;;
  let manager_dict := dict_pop name manager_dict in
  manager_dict <- lift (dict_pop_strict "NEST" manager_dict) ;;
  if dict_truthy manager_dict
  then write_text devices_cache (json_dumps (PyDict manager_dict))
  else unlink devices_cache.

(** [connected_device] (setter) *)
Definition set_connected_device (device : option Device.t) : M unit :=
  match device with
  | Some d => write_text connected_cache (json_dumps (PyDevice d))
  | None => unlink connected_cache
  end.

Definition outdated_msg : string :=
  "Your device connection is outdated. Please retry `owlite device connect --name (name)`".

(** [connected_device] (getter) *)
Definition connected_device : M pyval :=
  connected <- read_text connected_cache ;;
  match connected with
  | None => ret PyNone
  | Some s =>
      if str_falsy s then ret PyNone
      else
        device <- loads s ;;
        (if negb (isinstance_Device device)
         then (log_warning outdated_msg ;; set_connected_device None)
         else ret tt) ;;
        ret device
  end.

End OwLiteSettings.

(* ================================================================== *)
(** * Sequences of store operations *)

(** One call on the store, as a client makes it. *)
Inductive op : Type :=
| GetTokens
| SetTokens (new_tokens : option Tokens.t)
| GetManagers
| AddManager (manager : DeviceManager.t)
| RemoveManager (name : string)
| GetConnectedDevice
| SetConnectedDevice (device : option Device.t)
| GetBaseUrl
| SetBaseUrl (base_urls : BaseURLs.t).

(** The world an operation leaves behind, whether it returned or raised. *)
Definition step {C : Core} (o : op) (w : world) : world :=
  match o with
  | GetTokens => fst (tokens w)
  | SetTokens t => fst (set_tokens t w)
  | GetManagers => fst (managers w)
  | AddManager m => fst (add_manager m w)
  | RemoveManager n => fst (remove_manager n w)
  | GetConnectedDevice => fst (connected_device w)
  | SetConnectedDevice d => fst (set_connected_device d w)
  | GetBaseUrl => fst (base_url w)
  | SetBaseUrl b => fst (set_base_url b w)
  end.

Definition run {C : Core} (ops : list op) (w : world) : world :=
  fold_left (fun w o => step o w) ops w.

(** An operation that adds a manager under the legacy name. *)
Definition adds_DEFAULT (o : op) : bool :=
  match o with
  | AddManager m => DeviceManager.name m =? "DEFAULT"
  | _ => false
  end.

(** The devices file is absent or decodes to a mapping without key [k]. *)
Definition disk_lacks_key {C : Core} (k : string) (w : world) : Prop :=
  match file devices_cache (disk w) with
  | None => True
  | Some s => exists d, json_loads s = Some (PyDict d) /\ dict_mem k d = false
  end.

(** The devices file is present and decodes to a mapping with key [k]. *)
Definition disk_has_key {C : Core} (k : string) (w : world) : Prop :=
  exists s d, file devices_cache (disk w) = Some s /\
              json_loads s = Some (PyDict d) /\ dict_mem k d = true.

(** The devices file is present and decodes to the empty mapping. *)
Definition disk_holds_empty_mapping {C : Core} (w : world) : Prop :=
  exists s, file devices_cache (disk w) = Some s /\ json_loads s = Some (PyDict []).

(** No value of the mapping is a bare string. *)
Definition structured (d : pydict) : bool :=
  forallb (fun kv => negb (isinstance_str (snd kv))) d.

(** The mapping is in the current shape: no legacy or synthetic key and no
    bare-string value. *)
Definition current_shape (d : pydict) : bool :=
  negb (dict_mem "DEFAULT" d) && negb (dict_mem "NEST" d) && structured d.

(** The entry [managers] computes from the current base URLs. *)
Definition synthetic (b : BaseURLs.t) : string * pyval :=
  ("NEST", PyDeviceManager (DeviceManager.mk "NEST" (BaseURLs.NEST b))).

(** The world after [devices_cache.write_text(json.dumps(d, ...))]. *)
Definition persisted {C : Core} (d : pydict) (w : world) : world :=
  fst (write_text devices_cache (json_dumps (PyDict d)) w).

Definition is_warning (e : event) : bool :=
  match e with Warning _ => true | _ => false end.

Definition writes_to (p : path) (e : event) : bool :=
  match e, p with
  | WriteText tokens_cache _, tokens_cache
  | WriteText devices_cache _, devices_cache
  | WriteText connected_cache _, connected_cache
  | WriteText urls_cache _, urls_cache => true
  | _, _ => false
  end.

(** A cache directory with no file and nothing logged yet. *)
Definition fresh : world := mkWorld (mkFiles None None None None) [].

(* ================================================================== *)
(** * A reference codec

    A concrete tagged codec meeting [CoreLaws]: every value is written as a
    one-character discriminant followed by its fields, texts and sequences
    carrying their length in front.  It instantiates the collaborators in
    the concrete scenarios below. *)

Module RefCodec.

(** A length in unary, closed by a dot. *)
Fixpoint unary (n : nat) : string :=
  match n with
  | O => "."
  | S n => String "1" (unary n)
  end.

Fixpoint read_unary (s : string) : option (nat * string) :=
  match s with
  | EmptyString => None
  | String c r =>
      if Ascii.eqb c "." then Some (O, r)
      else if Ascii.eqb c "1" then
        match read_unary r with
        | Some (n, r') => Some (S n, r')
        | None => None
        end
      else None
  end.

Fixpoint read_chars (n : nat) (s : string) : option (string * string) :=
  match n with
  | O => Some ("", s)
  | S n =>
      match s with
      | EmptyString => None
      | String c r =>
          match read_chars n r with
          | Some (a, r') => Some (String c a, r')
          | None => None
          end
      end
  end.

Definition enc_str (s : string) : string :=
  (unary (String.length s) ++ s)%string.

Definition read_str (s : string) : option (string * string) :=
  match read_unary s with
  | Some (n, r) => read_chars n r
  | None => None
  end.

Fixpoint enc_many {A} (enc : A -> string) (l : list A) : string :=
  match l with
  | [] => ""
  | x :: r => (enc x ++ enc_many enc r)%string
  end.

Fixpoint read_many {A} (item : string -> option (A * string)) (n : nat) (s : string)
  : option (list A * string) :=
  match n with
  | O => Some ([], s)
  | S n =>
      match item s with
      | Some (x, r) =>
          match read_many item n r with
          | Some (xs, r') => Some (x :: xs, r')
          | None => None
          end
      | None => None
      end
  end.

Definition enc_int (z : Z) : string :=
  ((if (z <? 0)%Z then "-" else "+") ++ unary (Z.abs_nat z))%string.

Definition read_int (s : string) : option (Z * string) :=
  match s with
  | EmptyString => None
  | String c r =>
      match read_unary r with
      | Some (n, r') =>
          if Ascii.eqb c "+" then Some (Z.of_nat n, r')
          else if Ascii.eqb c "-" then Some ((- Z.of_nat n)%Z, r')
          else None
      | None => None
      end
  end.

Definition enc_entry (enc : pyval -> string) (kv : string * pyval) : string :=
  let (k, x) := kv in (enc_str k ++ enc x)%string.

Definition enc_manager (m : DeviceManager.t) : string :=
  (enc_str (DeviceManager.name m) ++ enc_str (DeviceManager.url m))%string.

Definition read_manager (s : string) : option (DeviceManager.t * string) :=
  match read_str s with
  | Some (n, r) =>
      match read_str r with
      | Some (u, r') => Some (DeviceManager.mk n u, r')
      | None => None
      end
  | None => None
  end.

Fixpoint encode (v : pyval) : string :=
  match v with
  | PyNone => "n"
  | PyBool true => "t"
  | PyBool false => "f"
  | PyInt z => String "i" (enc_int z)
  | PyStr s => String "s" (enc_str s)
  | PyList l => String "l" (unary (List.length l) ++ enc_many encode l)
  | PyDict d =>
      String "d" (unary (List.length d) ++
                  enc_many (enc_entry encode) d)
  | PyTokens t =>
      String "T" (enc_str (Tokens.access_token t) ++ enc_str (Tokens.refresh_token t))
  | PyDeviceManager m => String "M" (enc_manager m)
  | PyDevice d => String "D" (enc_str (Device.name d) ++ enc_manager (Device.manager d))
  | PyBaseURLs b =>
      String "B" (enc_str (BaseURLs.FRONT b) ++ enc_str (BaseURLs.MAIN b) ++
                  enc_str (BaseURLs.DOVE b) ++ enc_str (BaseURLs.NEST b))
  end%string.

Definition read_entry (item : string -> option (pyval * string)) (s : string)
  : option ((string * pyval) * string) :=
  match read_str s with
  | Some (k, r) =>
      match item r with
      | Some (x, r') => Some ((k, x), r')
      | None => None
      end
  | None => None
  end.

Definition read_tokens (s : string) : option (pyval * string) :=
  match read_str s with
  | Some (a, r) =>
      match read_str r with
      | Some (b, r') => Some (PyTokens (Tokens.mk a b), r')
      | None => None
      end
  | None => None
  end.

Definition read_device (s : string) : option (pyval * string) :=
  match read_str s with
  | Some (n, r) =>
      match read_manager r with
      | Some (m, r') => Some (PyDevice (Device.mk n m), r')
      | None => None
      end
  | None => None
  end.

Definition read_urls (s : string) : option (pyval * string) :=
  match read_str s with
  | Some (a, r1) =>
      match read_str r1 with
      | Some (b, r2) =>
          match read_str r2 with
          | Some (c, r3) =>
              match read_str r3 with
              | Some (d, r4) => Some (PyBaseURLs (BaseURLs.mk a b c d), r4)
              | None => None
              end
          | None => None
          end
      | None => None
      end
  | None => None
  end.

(** Reads one value off the front of a text; [fuel] bounds the nesting. *)
Fixpoint decode (fuel : nat) (s : string) : option (pyval * string) :=
  match fuel with
  | O => None
  | S fuel =>
      match s with
      | EmptyString => None
      | String c r =>
          if Ascii.eqb c "n" then Some (PyNone, r)
          else if Ascii.eqb c "t" then Some (PyBool true, r)
          else if Ascii.eqb c "f" then Some (PyBool false, r)
          else if Ascii.eqb c "i" then
            match read_int r with
            | Some (z, r') => Some (PyInt z, r')
            | None => None
            end
          else if Ascii.eqb c "s" then
            match read_str r with
            | Some (x, r') => Some (PyStr x, r')
            | None => None
            end
          else if Ascii.eqb c "l" then
            match read_unary r with
            | Some (n, r') =>
                match read_many (decode fuel) n r' with
                | Some (l, r'') => Some (PyList l, r'')
                | None => None
                end
            | None => None
            end
          else if Ascii.eqb c "d" then
            match read_unary r with
            | Some (n, r') =>
                match read_many (read_entry (decode fuel)) n r' with
                | Some (d, r'') => Some (PyDict d, r'')
                | None => None
                end
            | None => None
            end
          else if Ascii.eqb c "T" then read_tokens r
          else if Ascii.eqb c "M" then
            match read_manager r with
            | Some (m, r') => Some (PyDeviceManager m, r')
            | None => None
            end
          else if Ascii.eqb c "D" then read_device r
          else if Ascii.eqb c "B" then read_urls r
          else None
      end
  end.

Definition dumps (v : pyval) : string := encode v.

(** The whole text must be one value. *)
Definition loads (s : string) : option pyval :=
  match decode (String.length s) s with
  | Some (v, EmptyString) => Some v
  | _ => None
  end.

(** The default endpoints: the constants behind [BaseURLs()] are not in the
    sources; any four addresses do. *)
Definition default_urls : BaseURLs.t :=
  BaseURLs.mk "https://front" "https://main" "https://dove" "https://nest".

End RefCodec.

#[export] Instance ref_core : Core := {|
  json_dumps := RefCodec.dumps;
  json_loads := RefCodec.loads;
  BaseURLs_default := RefCodec.default_urls
|}.

(** Worlds used in the concrete scenarios. *)
Definition with_devices (v : pyval) : world :=
  mkWorld (mkFiles None (Some (RefCodec.dumps v)) None None) [].

Definition foo_manager : DeviceManager.t := DeviceManager.mk "foo" "http://x".
Definition bar_manager : DeviceManager.t := DeviceManager.mk "bar" "http://y".

(** A legacy file: the old default entry and one bare address. *)
Definition legacy_world : world :=
  with_devices (PyDict [("DEFAULT", PyStr "z"); ("bar", PyStr "http://y")]).

(** A legacy file that holds nothing but the old default entry. *)
Definition legacy_only_world : world :=
  with_devices (PyDict [("DEFAULT", PyStr "z")]).

(** A file in the current shape with one manager. *)
Definition foo_world : world :=
  with_devices (PyDict [("foo", PyDeviceManager foo_manager)]).

(** The connected-device file holds a manager record, not a [Device]. *)
Definition stale_world : world :=
  mkWorld (mkFiles None None (Some (RefCodec.dumps (PyDeviceManager foo_manager))) None) [].

(** Zero-length tokens, connected-device and base-URL files. *)
Definition zero_length_world : world :=
  mkWorld (mkFiles (Some "") None (Some "") (Some "")) [].

(** A file in the current shape with two managers. *)
Definition two_world : world :=
  with_devices (PyDict [("foo", PyDeviceManager foo_manager);
                        ("bar", PyDeviceManager bar_manager)]).

(** Tokens, connected-device and base-URL files that do not decode. *)
Definition junk_world : world :=
  mkWorld (mkFiles (Some "junk") None (Some "junk") (Some "junk")) [].

(** The devices file holds a list, not a mapping. *)
Definition list_world : world := with_devices (PyList [PyStr "foo"]).

(** A store with tokens set and nothing else. *)
Definition tokens_world : world :=
  mkWorld (mkFiles (Some (RefCodec.dumps (PyTokens (Tokens.mk "access" "refresh"))))
                   None None None) [].

Definition custom_urls : BaseURLs.t :=
  BaseURLs.mk "http://front" "http://main" "http://dove" "http://my-nest".

(** A session that uses no reserved name. *)
Definition good_session : list op :=
  [AddManager foo_manager; GetManagers; AddManager bar_manager;
   SetBaseUrl custom_urls; RemoveManager "foo"; GetTokens; RemoveManager "ghost"].

(** The legacy devices file next to a base-URL file that does not decode. *)
Definition legacy_junk_urls_world : world :=
  mkWorld (mkFiles None
                   (Some (RefCodec.dumps
                            (PyDict [("DEFAULT", PyStr "z"); ("bar", PyStr "http://y")])))
                   None (Some "junk")) [].

(** A session on the legacy file that adds a manager named ["DEFAULT"] and
    goes on with other operations. *)
Definition legacy_session : list op :=
  [GetTokens; AddManager foo_manager; AddManager (DeviceManager.mk "DEFAULT" "http://z");
   GetBaseUrl; RemoveManager "ghost"; SetTokens None].

(** A session that never touches the tokens partition. *)
Definition other_session : list op :=
  [AddManager foo_manager; SetBaseUrl custom_urls; GetConnectedDevice;
   RemoveManager "NEST"; SetConnectedDevice None; RemoveManager "foo"].

(* ================================================================== *)
(** * The store seen as a dictionary of user managers *)

(** The devices file stores the user mapping [users]: no file for the empty
    mapping, otherwise a text decoding to a non-empty mapping in the current
    shape with unique keys. *)
Definition holds {C : Core} (w : world) (users : pydict) : Prop :=
  match file devices_cache (disk w) with
  | None => users = []
  | Some s =>
      json_loads s = Some (PyDict users) /\
      dict_truthy users = true /\
      current_shape users = true /\
      NoDup (dict_keys users)
  end.

(** The base-URL read succeeds with a [BaseURLs] record. *)
Definition urls_readable {C : Core} (w : world) : Prop :=
  exists b, base_url w = (w, Ok (PyBaseURLs b)).

(** What an operation does to the user mapping. *)
Definition apply_op (o : op) (users : pydict) : pydict :=
  match o with
  | AddManager m => dict_set (DeviceManager.name m) (PyDeviceManager m) users
  | RemoveManager n => dict_pop n users
  | _ => users
  end.

(** The operation uses no reserved name: no manager called ["NEST"] or
    ["DEFAULT"] is added, ["NEST"] is not removed. *)
Definition well_named (o : op) : bool :=
  match o with
  | AddManager m =>
      negb (DeviceManager.name m =? "NEST") && negb (DeviceManager.name m =? "DEFAULT")
  | RemoveManager n => negb (n =? "NEST")
  | _ => true
  end.

(** The file an operation belongs to. *)
Definition partition_of (o : op) : path :=
  match o with
  | GetTokens | SetTokens _ => tokens_cache
  | GetManagers | AddManager _ | RemoveManager _ => devices_cache
  | GetConnectedDevice | SetConnectedDevice _ => connected_cache
  | GetBaseUrl | SetBaseUrl _ => urls_cache
  end.

Definition path_eqb (p q : path) : bool :=
  match p, q with
  | tokens_cache, tokens_cache
  | devices_cache, devices_cache
  | connected_cache, connected_cache
  | urls_cache, urls_cache => true
  | _, _ => false
  end.

(** The event is a write or a delete of file [p], or the warning of the
    connected-device read. *)
Definition concerns (p : path) (e : event) : bool :=
  match e with
  | WriteText q _ => path_eqb q p
  | Unlink q => path_eqb q p
  | Warning _ => path_eqb p connected_cache
  end.

(** The operation belongs to the device-manager partition. *)
Definition is_devices_op (o : op) : bool := path_eqb (partition_of o) devices_cache.

(** The last device-manager operation of a sequence, if there is one. *)
Definition last_devices_op (ops : list op) : option op :=
  fold_left (fun acc o => if is_devices_op o then Some o else acc) ops None.

(** From [w] to [w'] only file [p] may have changed, and every event
    logged in between concerns [p]. *)
Definition effect_within (p : path) (w w' : world) : Prop :=
  exists evs,
    trace w' = trace w ++ evs /\
    forallb (concerns p) evs = true /\
    forall q, q <> p -> file q (disk w') = file q (disk w).

(** The devices file is absent or decodes to a non-empty mapping. *)
Definition absent_or_nonempty {C : Core} (w : world) : Prop :=
  match file devices_cache (disk w) with
  | None => True
  | Some s => exists d, json_loads s = Some (PyDict d) /\ dict_truthy d = true
  end.

(** The exception [self.base_url.NEST] ends in, if any: the one the
    base-URL read raised, or [AttributeError] on a value without that field. *)
Definition nest_error (r : result pyval) : option exn :=
  match r with
  | Raise e => Some e
  | Ok (PyBaseURLs _) => None
  | Ok _ => Some AttributeError
  end.

(** The exception a devices text [s] makes the read end in, if any: it does
    not decode, or it decodes to something that is not a dict. *)
Definition devices_error {C : Core} (s : string) : option exn :=
  match json_loads s with
  | None => Some JSONDecodeError
  | Some (PyDict _) => None
  | Some (PyList _) => Some TypeError
  | Some _ => Some AttributeError
  end.

(** The value [migrate] stores for an entry [(k, v)]. *)
Definition rebuilt (k : string) (v : pyval) : pyval := snd (rebuild_entry (k, v)).

(* ================================================================== *)
(** * The reference codec meets the codec contract *)

Lemma str_app_assoc (a b c : string) : ((a ++ b) ++ c = a ++ (b ++ c))%string.
Proof. induction a as [|x a IH]; simpl; [reflexivity | now rewrite IH]. Qed.

Lemma str_length_app (a b : string) :
  String.length (a ++ b)%string = String.length a + String.length b.
Proof. induction a as [|x a IH]; simpl; [reflexivity | now rewrite IH]. Qed.

Module RefCodecFacts.
Import RefCodec.
Local Open Scope string_scope.

Lemma read_unary_unary n r : read_unary (unary n ++ r) = Some (n, r).
Proof. induction n as [|n IH]; simpl; [reflexivity | now rewrite IH]. Qed.

Lemma read_chars_app s r : read_chars (String.length s) (s ++ r) = Some (s, r).
Proof. induction s as [|c s IH]; simpl; [reflexivity | now rewrite IH]. Qed.

Lemma read_str_enc s r : read_str (enc_str s ++ r) = Some (s, r).
Proof.
  unfold read_str, enc_str.
  now rewrite str_app_assoc, read_unary_unary, read_chars_app.
Qed.

Lemma read_int_enc z r : read_int (enc_int z ++ r) = Some (z, r).
Proof.
  unfold enc_int, read_int.
  destruct (Z.ltb_spec z 0); simpl; rewrite read_unary_unary; do 2 f_equal; lia.
Qed.

Lemma read_manager_enc m r : read_manager (enc_manager m ++ r) = Some (m, r).
Proof.
  unfold read_manager, enc_manager. destruct m as [n u]; simpl.
  now rewrite str_app_assoc, !read_str_enc.
Qed.

Lemma enc_many_length {A} (enc : A -> string) (l : list A) (x : A) :
  In x l -> String.length (enc x) <= String.length (enc_many enc l).
Proof.
  induction l as [|y l IH]; simpl; [tauto|].
  rewrite str_length_app. intros [->|Hin]; [lia | specialize (IH Hin); lia].
Qed.

Lemma read_many_enc {A} (enc : A -> string) (item : string -> option (A * string))
      (l : list A) (rest : string) :
  (forall x, In x l -> forall r, item (enc x ++ r) = Some (x, r)) ->
  read_many item (List.length l) (enc_many enc l ++ rest) = Some (l, rest).
Proof.
  induction l as [|x l IH]; intros H; simpl; [reflexivity|].
  rewrite str_app_assoc, (H x (or_introl eq_refl)), IH; [reflexivity|].
  intros y Hy. apply H. now right.
Qed.

Lemma encode_length_pos v : 1 <= String.length (encode v).
Proof. destruct v as [ |[|]| | | | | | | | ]; simpl; lia. Qed.

Lemma decode_encode v :
  forall fuel rest,
    String.length (encode v) <= fuel ->
    decode fuel (encode v ++ rest) = Some (v, rest).
Proof.
  induction v as [ |b|z|s|l IH|d IH|t|m|dv|b] using pyval_nested_ind;
    intros fuel rest Hlen;
    (destruct fuel as [|fuel];
     [exfalso; revert Hlen;
      match goal with |- String.length (encode ?v) <= _ -> _ =>
        pose proof (encode_length_pos v) end; lia
     | simpl in Hlen]).
  - reflexivity.
  - destruct b; reflexivity.
  - simpl. now rewrite read_int_enc.
  - simpl. now rewrite read_str_enc.
  - simpl. rewrite str_app_assoc, read_unary_unary.
    rewrite str_length_app in Hlen.
    rewrite read_many_enc; [reflexivity|].
    intros x Hx r. rewrite Forall_forall in IH. apply IH; [assumption|].
    pose proof (enc_many_length encode l x Hx). lia.
  - simpl. rewrite str_app_assoc, read_unary_unary.
    rewrite str_length_app in Hlen.
    rewrite read_many_enc; [reflexivity|].
    intros [k x] Hx r. rewrite Forall_forall in IH.
    unfold read_entry, enc_entry. rewrite str_app_assoc, read_str_enc.
    rewrite (IH (k, x) Hx); [reflexivity|].
    pose proof (enc_many_length (enc_entry encode) d (k, x) Hx) as Hle.
    unfold enc_entry at 1 in Hle. rewrite str_length_app in Hle. simpl. lia.
  - simpl. destruct t as [a r]. unfold read_tokens. simpl.
    now rewrite str_app_assoc, !read_str_enc.
  - simpl. now rewrite read_manager_enc.
  - simpl. destruct dv as [n m]. unfold read_device. simpl.
    now rewrite str_app_assoc, read_str_enc, read_manager_enc.
  - simpl. destruct b as [a b c d]. unfold read_urls. simpl.
    now rewrite !str_app_assoc, !read_str_enc.
Qed.

Lemma str_app_nil (s : string) : (s ++ "")%string = s.
Proof. induction s as [|c s IH]; simpl; [reflexivity | now rewrite IH]. Qed.

Lemma loads_dumps v : loads (dumps v) = Some v.
Proof.
  unfold loads, dumps.
  rewrite <- (str_app_nil (encode v)) at 2.
  now rewrite decode_encode.
Qed.

Lemma dumps_nonempty v : dumps v <> "".
Proof. destruct v as [ |[|]| | | | | | | | ]; discriminate. Qed.

End RefCodecFacts.

Lemma ref_core_laws : CoreLaws ref_core.
Proof.
  constructor.
  - exact RefCodecFacts.loads_dumps.
  - exact RefCodecFacts.dumps_nonempty.
  - reflexivity.
Qed.

(* ================================================================== *)
(** * Facts about dictionaries *)

Lemma dict_mem_pop_same k d : dict_mem k (dict_pop k d) = false.
Proof.
  unfold dict_mem, dict_pop. induction d as [|[k' v] d IH]; simpl; [reflexivity|].
  destruct (k' =? k) eqn:E; simpl; [assumption | now rewrite E].
Qed.

Lemma dict_mem_pop_other k k' d :
  k <> k' -> dict_mem k' (dict_pop k d) = dict_mem k' d.
Proof.
  intros Hne. unfold dict_mem, dict_pop.
  induction d as [|[k0 v] d IH]; simpl; [reflexivity|].
  destruct (k0 =? k) eqn:E; simpl.
  - apply String.eqb_eq in E. subst k0.
    apply String.eqb_neq in Hne. now rewrite Hne.
  - now rewrite IH.
Qed.

Lemma dict_pop_absent k d : dict_mem k d = false -> dict_pop k d = d.
Proof.
  unfold dict_mem, dict_pop. induction d as [|[k' v] d IH]; simpl; [reflexivity|].
  intros H. apply orb_false_iff in H as [E H]. rewrite E. simpl. now rewrite IH.
Qed.

Lemma dict_get_pop_other k k' d :
  k <> k' -> dict_get k' (dict_pop k d) = dict_get k' d.
Proof.
  intros Hne. unfold dict_pop. induction d as [|[k0 v] d IH]; simpl; [reflexivity|].
  destruct (k0 =? k) eqn:E; simpl.
  - apply String.eqb_eq in E. subst k0.
    apply String.eqb_neq in Hne. now rewrite Hne.
  - now rewrite IH.
Qed.

Lemma dict_get_None_mem k d : dict_get k d = None <-> dict_mem k d = false.
Proof.
  unfold dict_mem. induction d as [|[k' v] d IH]; simpl; [tauto|].
  destruct (k' =? k); simpl; [split; discriminate | exact IH].
Qed.

Lemma dict_mem_set k v k' d :
  dict_mem k' (dict_set k v d) = ((k =? k') || dict_mem k' d)%bool.
Proof.
  unfold dict_mem. induction d as [|[k0 v0] d IH]; simpl.
  - reflexivity.
  - destruct (k0 =? k) eqn:E; simpl.
    + apply String.eqb_eq in E. subst k0. now destruct (k =? k').
    + rewrite IH. destruct (k0 =? k'), (k =? k'); reflexivity.
Qed.

Lemma dict_get_set_same k v d : dict_get k (dict_set k v d) = Some v.
Proof.
  induction d as [|[k0 v0] d IH]; simpl.
  - now rewrite String.eqb_refl.
  - destruct (k0 =? k) eqn:E; simpl; [now rewrite String.eqb_refl | now rewrite E].
Qed.

Lemma dict_get_set_other k v k' d :
  k <> k' -> dict_get k' (dict_set k v d) = dict_get k' d.
Proof.
  intros Hne. apply String.eqb_neq in Hne.
  induction d as [|[k0 v0] d IH]; simpl.
  - now rewrite Hne.
  - destruct (k0 =? k) eqn:E; simpl.
    + apply String.eqb_eq in E. subst k0. now rewrite Hne.
    + now rewrite IH.
Qed.

Lemma dict_mem_update k d2 : forall d1,
  dict_mem k (dict_update d1 d2) = (dict_mem k d1 || dict_mem k d2)%bool.
Proof.
  unfold dict_update. induction d2 as [|[k0 v0] d2 IH]; intros d1; simpl.
  - now rewrite orb_false_r.
  - rewrite IH, dict_mem_set. simpl.
    destruct (k0 =? k), (dict_mem k d1); reflexivity.
Qed.

Lemma dict_mem_In k d : dict_mem k d = true <-> In k (dict_keys d).
Proof.
  unfold dict_mem, dict_keys. induction d as [|[k0 v0] d IH]; simpl.
  - split; [discriminate | tauto].
  - rewrite orb_true_iff, IH, String.eqb_eq. tauto.
Qed.

Lemma dict_keys_set k v d :
  dict_keys (dict_set k v d) =
  if dict_mem k d then dict_keys d else dict_keys d ++ [k].
Proof.
  unfold dict_keys, dict_mem. induction d as [|[k0 v0] d IH]; simpl; [reflexivity|].
  destruct (k0 =? k) eqn:E; simpl.
  - apply String.eqb_eq in E. now subst k0.
  - rewrite IH. now destruct (existsb _ d).
Qed.

Lemma NoDup_keys_set k v d : NoDup (dict_keys d) -> NoDup (dict_keys (dict_set k v d)).
Proof.
  intros H. rewrite dict_keys_set. destruct (dict_mem k d) eqn:E; [assumption|].
  apply NoDup_app; [assumption | repeat constructor; simpl; tauto |].
  intros x Hx [<-|[]].
  apply dict_mem_In in Hx. congruence.
Qed.

Lemma NoDup_keys_update d2 : forall d1,
  NoDup (dict_keys d1) -> NoDup (dict_keys (dict_update d1 d2)).
Proof.
  unfold dict_update. induction d2 as [|[k0 v0] d2 IH]; intros d1 H; simpl.
  - assumption.
  - apply IH. now apply NoDup_keys_set.
Qed.

Lemma NoDup_keys_pop k d : NoDup (dict_keys d) -> NoDup (dict_keys (dict_pop k d)).
Proof.
  unfold dict_keys, dict_pop. induction d as [|[k0 v0] d IH]; simpl; intros H.
  - constructor.
  - inversion H as [|? ? Hnin Hnd]; subst.
    destruct (k0 =? k); simpl; [now apply IH|].
    constructor; [|now apply IH].
    intros Hin. apply Hnin.
    apply in_map_iff in Hin as [[k1 v1] [Hk Hin]]. simpl in Hk. subst k1.
    apply filter_In in Hin as [Hin _].
    apply in_map_iff. now exists (k0, v1).
Qed.

(** With unique keys in [d2], [d1.update(d2)] looks a key up in [d2] first. *)
Lemma dict_get_update k d2 : forall d1,
  NoDup (dict_keys d2) ->
  dict_get k (dict_update d1 d2) =
  match dict_get k d2 with Some v => Some v | None => dict_get k d1 end.
Proof.
  unfold dict_update. induction d2 as [|[k0 v0] d2 IH]; intros d1 H; simpl.
  - reflexivity.
  - inversion H as [|? ? Hnin Hnd]; subst.
    rewrite (IH _ Hnd).
    destruct (k0 =? k) eqn:E.
    + apply String.eqb_eq in E. subst k0.
      assert (dict_get k d2 = None) as ->.
      { apply dict_get_None_mem. destruct (dict_mem k d2) eqn:M; [|reflexivity].
        apply dict_mem_In in M. contradiction. }
      apply dict_get_set_same.
    + apply String.eqb_neq in E. now rewrite (dict_get_set_other _ _ _ _ E).
Qed.

Lemma structured_set k v d :
  isinstance_str v = false -> structured d = true -> structured (dict_set k v d) = true.
Proof.
  unfold structured. intros Hv. induction d as [|[k0 v0] d IH]; simpl.
  - now rewrite Hv.
  - intros H. apply andb_true_iff in H as [H0 H].
    destruct (k0 =? k); simpl; [now rewrite Hv | now rewrite H0, IH].
Qed.

Lemma structured_update d2 : forall d1,
  structured d1 = true -> structured d2 = true -> structured (dict_update d1 d2) = true.
Proof.
  unfold dict_update. induction d2 as [|[k0 v0] d2 IH]; intros d1 H1 H2; simpl.
  - assumption.
  - unfold structured in H2. simpl in H2. apply andb_true_iff in H2 as [H0 H2].
    apply IH; [|exact H2]. apply structured_set; [|assumption].
    now destruct (isinstance_str v0).
Qed.

Lemma structured_pop k d : structured d = true -> structured (dict_pop k d) = true.
Proof.
  unfold structured, dict_pop. induction d as [|[k0 v0] d IH]; simpl; [reflexivity|].
  intros H. apply andb_true_iff in H as [H0 H].
  destruct (k0 =? k); simpl; [now apply IH | now rewrite H0, IH].
Qed.

Lemma dict_truthy_mem k d : dict_mem k d = true -> dict_truthy d = true.
Proof. destruct d; [discriminate | reflexivity]. Qed.

(* ------------------------------------------------------------------ *)
(** ** Migration *)

Lemma dict_mem_rebuild k d : dict_mem k (map rebuild_entry d) = dict_mem k d.
Proof.
  unfold dict_mem. induction d as [|[k0 v0] d IH]; simpl; [reflexivity|].
  rewrite IH. f_equal. unfold rebuild_entry. simpl. now destruct v0.
Qed.

Lemma structured_rebuild d : structured (map rebuild_entry d) = true.
Proof.
  unfold structured. induction d as [|[k0 v0] d IH]; simpl; [reflexivity|].
  rewrite IH, andb_true_r. unfold rebuild_entry. simpl. now destruct v0.
Qed.

Lemma rebuild_structured d : structured d = true -> map rebuild_entry d = d.
Proof.
  unfold structured. induction d as [|[k0 v0] d IH]; simpl; [reflexivity|].
  intros H. apply andb_true_iff in H as [H0 H]. rewrite (IH H). f_equal.
  unfold rebuild_entry. simpl. now destruct v0.
Qed.

Lemma migrate_lacks_NEST d : dict_mem "NEST" (migrate d) = false.
Proof. unfold migrate. rewrite dict_mem_rebuild. apply dict_mem_pop_same. Qed.

Lemma migrate_lacks_DEFAULT d : dict_mem "DEFAULT" (migrate d) = false.
Proof.
  unfold migrate. rewrite dict_mem_rebuild, dict_mem_pop_other by discriminate.
  apply dict_mem_pop_same.
Qed.

Lemma migrate_structured d : structured (migrate d) = true.
Proof. apply structured_rebuild. Qed.

Lemma current_shape_spec d :
  current_shape d = true <->
  dict_mem "DEFAULT" d = false /\ dict_mem "NEST" d = false /\ structured d = true.
Proof.
  unfold current_shape, structured.
  rewrite !andb_true_iff, !negb_true_iff. tauto.
Qed.

(** Migration leaves a mapping in the current shape as it is. *)
Lemma migrate_current_shape d : current_shape d = true -> migrate d = d.
Proof.
  intros H. apply current_shape_spec in H as (HD & HN & HS).
  unfold migrate. rewrite (dict_pop_absent _ _ HD), (dict_pop_absent _ _ HN).
  now apply rebuild_structured.
Qed.

Lemma migrate_is_current d : current_shape (migrate d) = true.
Proof.
  apply current_shape_spec.
  auto using migrate_lacks_DEFAULT, migrate_lacks_NEST, migrate_structured.
Qed.

(* ================================================================== *)
(** * Facts about the store *)

(** Exposes the files and the trace of a world that a write produced. *)
Ltac after_write := unfold persisted, write_text; cbn [fst snd disk trace].

Lemma file_set_same p c fs : file p (set_file p c fs) = c.
Proof. now destruct p. Qed.

Lemma file_set_other p q c fs : p <> q -> file q (set_file p c fs) = file q fs.
Proof. destruct p, q; simpl; congruence. Qed.

Lemma world_eta w : mkWorld (disk w) (trace w) = w.
Proof. now destruct w. Qed.

Section StoreFacts.
Context {C : Core}.

(** ** The tokens, connected-device and base-URL partitions *)

(** C10: a present but zero-length file reads like an absent one on the
    tokens, connected-device and base-URL read paths: the tokens read and
    the connected-device read return [None], the base-URL read returns the
    built-in default; none of them raises, and the world (files and log)
    is left as it was, so nothing is warned about or purged. *)
Theorem zero_length_file_reads_as_absent (w : world) (content : option string) :
  content = None \/ content = Some "" ->
  (file tokens_cache (disk w) = content -> tokens w = (w, Ok PyNone)) /\
  (file connected_cache (disk w) = content -> connected_device w = (w, Ok PyNone)) /\
  (file urls_cache (disk w) = content ->
   base_url w = (w, Ok (PyBaseURLs BaseURLs_default))).
Proof.
  intros Hc. repeat split; intros Hf.
  - unfold tokens, bind, read_text. rewrite Hf. now destruct Hc as [->| ->].
  - unfold connected_device, bind, read_text. rewrite Hf. now destruct Hc as [->| ->].
  - unfold base_url, bind, read_text. rewrite Hf. now destruct Hc as [->| ->].
Qed.

(** The managers read, in contrast, decodes a zero-length file and so
    raises on it. *)
Lemma managers_zero_length_raises (w : world) (b : BaseURLs.t) :
  json_loads "" = None ->
  base_url w = (w, Ok (PyBaseURLs b)) ->
  file devices_cache (disk w) = Some "" ->
  managers w = (w, Raise JSONDecodeError).
Proof.
  intros He Hb Hf. unfold managers, bind. rewrite Hb.
  unfold read_text, loads. simpl in *. now rewrite Hf, He.
Qed.

Context (laws : CoreLaws C).

Lemma str_falsy_dumps v : str_falsy (json_dumps v) = false.
Proof. apply String.eqb_neq. apply (dumps_nonempty C laws). Qed.

Lemma loads_json_dumps v w : loads (json_dumps v) w = (w, Ok v).
Proof. unfold loads. now rewrite (loads_dumps C laws). Qed.

(** C9: for every Tokens value [t], setting the tokens partition to [t] and
    reading it back returns [t]; setting it to [None] and reading returns
    [None], the tokens file is gone afterwards, and the delete succeeds on
    every world, the ones without a tokens file included. *)
Theorem tokens_set_then_get (t : Tokens.t) (w : world) :
  (snd (set_tokens (Some t) w) = Ok tt /\
   tokens (fst (set_tokens (Some t) w)) = (fst (set_tokens (Some t) w), Ok (PyTokens t))) /\
  (snd (set_tokens None w) = Ok tt /\
   tokens (fst (set_tokens None w)) = (fst (set_tokens None w), Ok PyNone) /\
   file tokens_cache (disk (fst (set_tokens None w))) = None).
Proof.
  repeat split.
  - unfold tokens, bind, read_text. simpl.
    now rewrite str_falsy_dumps, loads_json_dumps.
Qed.

(** C5: when the connected-device file holds a text that decodes to a value
    that is not a [Device], the read logs exactly one warning, deletes the
    file, and still returns the decoded value; the next read returns
    [None]. *)
Theorem stale_connected_device_is_purged (w : world) (s : string) (v : pyval) :
  file connected_cache (disk w) = Some s ->
  json_loads s = Some v ->
  isinstance_Device v = false ->
  let w' := fst (connected_device w) in
  snd (connected_device w) = Ok v /\
  trace w' = trace w ++ [Warning outdated_msg; Unlink connected_cache] /\
  List.length (filter is_warning (trace w')) =
    S (List.length (filter is_warning (trace w))) /\
  disk w' = set_file connected_cache None (disk w) /\
  file connected_cache (disk w') = None /\
  connected_device w' = (w', Ok PyNone).
Proof.
  intros Hf Hl Hv.
  assert (str_falsy s = false) as Hs.
  { apply String.eqb_neq. intros ->. rewrite (loads_empty C laws) in Hl. discriminate. }
  assert (connected_device w =
          (mkWorld (set_file connected_cache None (disk w))
                   ((trace w ++ [Warning outdated_msg]) ++ [Unlink connected_cache]),
           Ok v)) as E.
  { unfold connected_device, bind, read_text. rewrite Hf, Hs.
    unfold loads. rewrite Hl. simpl. now rewrite Hv. }
  rewrite E. simpl. repeat split.
  - now rewrite <- app_assoc.
  - rewrite !filter_app, !length_app. simpl. lia.
Qed.

End StoreFacts.

(* ================================================================== *)
(** * The device-manager partition *)

Lemma set_file_id p c fs : file p fs = c -> set_file p c fs = fs.
Proof. destruct p, fs; simpl; intros; subst; reflexivity. Qed.

Section ManagersFacts.
Context {C : Core}.

Lemma base_url_state w : fst (base_url w) = w.
Proof.
  unfold base_url, bind, read_text, loads.
  destruct (file urls_cache (disk w)) as [s|]; [|reflexivity].
  destruct (str_falsy s); [reflexivity|].
  now destruct (json_loads s).
Qed.

(** The base-URL read looks at the [urls] file only. *)
Lemma base_url_frame w w' r :
  base_url w = (w, r) ->
  file urls_cache (disk w') = file urls_cache (disk w) ->
  base_url w' = (w', r).
Proof.
  unfold base_url, bind, read_text, loads, ret, raise. intros H Hf. rewrite Hf.
  destruct (file urls_cache (disk w)) as [s|]; [|now inversion H].
  destruct (str_falsy s); [now inversion H|].
  destruct (json_loads s); now inversion H.
Qed.

(** Every way a [managers] read can go. *)
Lemma managers_cases w :
  (exists e, managers w = (w, Raise e)) \/
  (exists b, base_url w = (w, Ok (PyBaseURLs b)) /\
             file devices_cache (disk w) = None /\
             managers w = (w, Ok [synthetic b])) \/
  (exists b s d,
      base_url w = (w, Ok (PyBaseURLs b)) /\
      file devices_cache (disk w) = Some s /\
      json_loads s = Some (PyDict d) /\
      managers w =
        (persisted (migrate d) w,
         if dict_truthy (migrate d)
         then Ok (dict_update [synthetic b] (migrate d))
         else Raise AssertionError)).
Proof.
  unfold managers, bind.
  pose proof (base_url_state w) as Hst.
  destruct (base_url w) as [w0 [v|e]] eqn:Hb; simpl in Hst; subst w0;
    [|left; eexists; reflexivity].
  destruct v; try (left; eexists; reflexivity).
  unfold getattr_NEST, ret, read_text.
  destruct (file devices_cache (disk w)) as [s|] eqn:Hf.
  2:{ right; left. exists b. auto. }
  unfold loads.
  destruct (json_loads s) as [v|] eqn:Hl; [|left; eexists; reflexivity].
  destruct v; try (left; eexists; reflexivity).
  right; right. exists b, s, d. repeat split; try assumption.
  unfold _backward_compatibility, bind, write_text, ret, persisted, assert_.
  fold (migrate d). simpl.
  destruct (migrate d); reflexivity.
Qed.

Lemma managers_absent w b :
  base_url w = (w, Ok (PyBaseURLs b)) ->
  file devices_cache (disk w) = None ->
  managers w = (w, Ok [synthetic b]).
Proof.
  intros Hb Hf. unfold managers, bind. rewrite Hb.
  unfold getattr_NEST, ret, read_text. now rewrite Hf.
Qed.

Lemma managers_present w b s d :
  base_url w = (w, Ok (PyBaseURLs b)) ->
  file devices_cache (disk w) = Some s ->
  json_loads s = Some (PyDict d) ->
  managers w =
    (persisted (migrate d) w,
     if dict_truthy (migrate d)
     then Ok (dict_update [synthetic b] (migrate d))
     else Raise AssertionError).
Proof.
  intros Hb Hf Hl. unfold managers, bind. rewrite Hb.
  unfold getattr_NEST, ret, read_text. rewrite Hf.
  unfold loads. rewrite Hl.
  unfold _backward_compatibility, bind, write_text, ret, persisted, assert_.
  fold (migrate d). simpl.
  destruct (migrate d); reflexivity.
Qed.

(** What a successful read returns. *)
Lemma managers_Ok_inv w w' view :
  managers w = (w', Ok view) ->
  exists b,
    base_url w = (w, Ok (PyBaseURLs b)) /\
    ((file devices_cache (disk w) = None /\ w' = w /\ view = [synthetic b]) \/
     (exists s d,
         file devices_cache (disk w) = Some s /\
         json_loads s = Some (PyDict d) /\
         dict_truthy (migrate d) = true /\
         w' = persisted (migrate d) w /\
         view = dict_update [synthetic b] (migrate d))).
Proof.
  intros H.
  destruct (managers_cases w) as [[e H']|[(b & Hb & Hf & H')|(b & s & d & Hb & Hf & Hl & H')]];
    rewrite H' in H.
  - discriminate.
  - inversion H; subst. exists b. auto.
  - destruct (dict_truthy (migrate d)) eqn:Ht; inversion H; subst.
    exists b. split; [assumption|]. right. exists s, d. auto.
Qed.

End ManagersFacts.

Section ManagersRead.
Context {C : Core}.

(** C6: when the stored mapping migrates to the empty mapping, the
    [managers] read raises; it never returns a view, and with working base
    URLs the exception is the [AssertionError] of [assert cached_managers]. *)
Theorem empty_migration_fails_loudly (w : world) (s : string) (d : pydict) :
  file devices_cache (disk w) = Some s ->
  json_loads s = Some (PyDict d) ->
  migrate d = [] ->
  (exists e, snd (managers w) = Raise e) /\
  (forall view, snd (managers w) <> Ok view) /\
  (forall b, base_url w = (w, Ok (PyBaseURLs b)) ->
             snd (managers w) = Raise AssertionError).
Proof.
  intros Hf Hl Hm.
  assert (forall b, base_url w = (w, Ok (PyBaseURLs b)) ->
                    snd (managers w) = Raise AssertionError) as Hassert.
  { intros b Hb. rewrite (managers_present w b s d Hb Hf Hl), Hm. reflexivity. }
  assert (exists e, snd (managers w) = Raise e) as [e He].
  { destruct (managers_cases w) as [[e H]|[(b & _ & Hf' & _)|(b & _ & _ & Hb & _)]].
    - exists e. now rewrite H.
    - congruence.
    - exists AssertionError. now apply (Hassert b). }
  split; [now exists e|]. split; [|exact Hassert].
  intros view. rewrite He. discriminate.
Qed.

(** C4: on the legacy mapping [{"DEFAULT": "z", "bar": "http://y"}] one
    [managers] call drops ["DEFAULT"], rebuilds ["bar"] into
    [DeviceManager("bar", "http://y")], overwrites the file with the
    encoding of exactly that migrated mapping, and returns it merged with
    the synthetic ["NEST"] entry. *)
Theorem legacy_mapping_is_migrated (w : world) (s : string) (b : BaseURLs.t) :
  base_url w = (w, Ok (PyBaseURLs b)) ->
  file devices_cache (disk w) = Some s ->
  json_loads s = Some (PyDict [("DEFAULT", PyStr "z"); ("bar", PyStr "http://y")]) ->
  let migrated := [("bar", PyDeviceManager (DeviceManager.mk "bar" "http://y"))] in
  managers w =
    (mkWorld (set_file devices_cache (Some (json_dumps (PyDict migrated))) (disk w))
             (trace w ++ [WriteText devices_cache (json_dumps (PyDict migrated))]),
     Ok (synthetic b :: migrated)) /\
  file devices_cache (disk (fst (managers w))) = Some (json_dumps (PyDict migrated)) /\
  dict_mem "DEFAULT" migrated = false.
Proof.
  intros Hb Hf Hl migrated.
  rewrite (managers_present w b s _ Hb Hf Hl).
  repeat split.
Qed.

(** C3 (as amended): a [managers] read that finds a file decoding to a
    mapping always rewrites that file, once, with the encoding of the
    migrated mapping, whether or not migration changed anything.  When the
    stored mapping is already in the current shape, migration is the
    identity, so the rewritten text encodes the same mapping, and the disk
    is unchanged when the file held the encoder's own text. *)
Theorem managers_read_always_rewrites (w : world) (s : string) (d : pydict) (b : BaseURLs.t) :
  base_url w = (w, Ok (PyBaseURLs b)) ->
  file devices_cache (disk w) = Some s ->
  json_loads s = Some (PyDict d) ->
  let w' := fst (managers w) in
  trace w' = trace w ++ [WriteText devices_cache (json_dumps (PyDict (migrate d)))] /\
  disk w' = set_file devices_cache (Some (json_dumps (PyDict (migrate d)))) (disk w) /\
  (current_shape d = true ->
   migrate d = d /\
   file devices_cache (disk w') = Some (json_dumps (PyDict d)) /\
   (s = json_dumps (PyDict d) -> disk w' = disk w)).
Proof.
  intros Hb Hf Hl w'. subst w'.
  rewrite (managers_present w b s d Hb Hf Hl).
  after_write.
  repeat split.
  - now apply migrate_current_shape.
  - rewrite (migrate_current_shape d H). apply file_set_same.
  - intros ->. rewrite (migrate_current_shape d H). now apply set_file_id.
Qed.

End ManagersRead.

(** A key missing from [d2] is looked up in [d1] after [d1.update(d2)]. *)
Lemma dict_get_update_absent k d2 : forall d1,
  dict_mem k d2 = false -> dict_get k (dict_update d1 d2) = dict_get k d1.
Proof.
  unfold dict_update, dict_mem. induction d2 as [|[k0 v0] d2 IH]; intros d1 H; simpl in *.
  - reflexivity.
  - apply orb_false_iff in H as [E H]. rewrite (IH _ H).
    apply dict_get_set_other. now apply String.eqb_neq.
Qed.

Section ManagersWrite.
Context {C : Core}.

(** What every view returned by [managers] looks like. *)
Lemma managers_view_facts w w' view :
  managers w = (w', Ok view) ->
  exists b,
    base_url w = (w, Ok (PyBaseURLs b)) /\
    dict_get "NEST" view = Some (snd (synthetic b)) /\
    dict_mem "NEST" view = true /\
    dict_mem "DEFAULT" view = false /\
    structured view = true /\
    NoDup (dict_keys view) /\
    file urls_cache (disk w') = file urls_cache (disk w).
Proof.
  intros H. apply managers_Ok_inv in H as (b & Hb & Hcases).
  exists b. split; [assumption|].
  assert (NoDup (dict_keys [synthetic b])) as Hnd.
  { repeat constructor. simpl. tauto. }
  destruct Hcases as [(Hf & -> & ->)|(s & d & Hf & Hl & Ht & -> & ->)].
  - repeat split; assumption.
  - repeat split.
    + rewrite dict_get_update_absent; [reflexivity | apply migrate_lacks_NEST].
    + now rewrite dict_mem_update.
    + now rewrite dict_mem_update, migrate_lacks_DEFAULT.
    + apply structured_update; [reflexivity | apply migrate_structured].
    + now apply NoDup_keys_update.
Qed.

Lemma add_manager_raises w w0 e m :
  managers w = (w0, Raise e) -> add_manager m w = (w0, Raise e).
Proof. intros H. unfold add_manager, bind. now rewrite H. Qed.

(** [add_manager] after a successful read: the view with the manager set
    and ["NEST"] popped is written over the file. *)
Lemma add_manager_eval w w0 view m :
  managers w = (w0, Ok view) ->
  add_manager m w =
    (persisted (dict_pop "NEST"
                  (dict_set (DeviceManager.name m) (PyDeviceManager m) view)) w0,
     Ok tt).
Proof.
  intros H. destruct (managers_view_facts _ _ _ H) as (b & _ & _ & Hn & _).
  unfold add_manager, bind. rewrite H. unfold lift, dict_pop_strict.
  rewrite dict_mem_set, Hn, orb_true_r. reflexivity.
Qed.

Lemma remove_manager_raises w w0 e name :
  managers w = (w0, Raise e) -> remove_manager name w = (w0, Raise e).
Proof. intros H. unfold remove_manager, bind. now rewrite H. Qed.

(** [remove_manager] after a successful read, for a name other than
    ["NEST"]: the rest is written, or the file deleted when nothing is left. *)
Lemma remove_manager_eval w w0 view name :
  managers w = (w0, Ok view) ->
  name <> "NEST" ->
  remove_manager name w =
    (if dict_truthy (dict_pop "NEST" (dict_pop name view))
     then persisted (dict_pop "NEST" (dict_pop name view)) w0
     else fst (unlink devices_cache w0),
     Ok tt).
Proof.
  intros H Hne. destruct (managers_view_facts _ _ _ H) as (b & _ & _ & Hn & _).
  unfold remove_manager, bind. rewrite H. unfold lift, dict_pop_strict.
  rewrite (dict_mem_pop_other _ _ _ Hne), Hn.
  now destruct (dict_truthy _).
Qed.

(** [remove_manager("NEST")] pops the synthetic entry twice: the second,
    strict pop raises [KeyError]. *)
Lemma remove_manager_NEST_raises w w0 view :
  managers w = (w0, Ok view) ->
  remove_manager "NEST" w = (w0, Raise (KeyError "NEST")).
Proof.
  intros H. unfold remove_manager, bind. rewrite H. unfold lift, dict_pop_strict.
  now rewrite dict_mem_pop_same.
Qed.

(** C1 (as amended): for every name other than ["NEST"], whenever the
    [managers] read it starts with succeeds, [remove_manager] returns
    without raising, whether or not the name is among the entries: the
    remaining mapping is written back, or the file is deleted when nothing
    remains. *)
Theorem remove_manager_returns (name : string) (w w0 : world) (view : pydict) :
  name <> "NEST" ->
  managers w = (w0, Ok view) ->
  snd (remove_manager name w) = Ok tt /\
  fst (remove_manager name w) =
    (if dict_truthy (dict_pop "NEST" (dict_pop name view))
     then persisted (dict_pop "NEST" (dict_pop name view)) w0
     else fst (unlink devices_cache w0)) /\
  (dict_mem name view = false ->
   dict_pop "NEST" (dict_pop name view) = dict_pop "NEST" view).
Proof.
  intros Hne H. rewrite (remove_manager_eval _ _ _ _ H Hne).
  repeat split. intros Habs. now rewrite (dict_pop_absent _ _ Habs).
Qed.

Context (laws : CoreLaws C).

(** C8 (as amended): for every manager [m] whose name is neither ["NEST"]
    nor ["DEFAULT"], on a store whose [managers] read succeeds,
    [add_manager m] returns, the file then holds the encoding of a mapping
    that has [m] under [m.name] and no key ["NEST"], and the next
    [managers] read succeeds with a view that maps [m.name] to [m] and
    ["NEST"] to the entry recomputed from the base URLs, leaving the stored
    mapping as it is. *)
Theorem add_manager_then_managers (m : DeviceManager.t) (w w0 : world) (view0 : pydict)
        (b : BaseURLs.t) :
  DeviceManager.name m <> "NEST" ->
  DeviceManager.name m <> "DEFAULT" ->
  base_url w = (w, Ok (PyBaseURLs b)) ->
  managers w = (w0, Ok view0) ->
  let d := dict_pop "NEST" (dict_set (DeviceManager.name m) (PyDeviceManager m) view0) in
  let w1 := fst (add_manager m w) in
  snd (add_manager m w) = Ok tt /\
  file devices_cache (disk w1) = Some (json_dumps (PyDict d)) /\
  json_loads (json_dumps (PyDict d)) = Some (PyDict d) /\
  dict_get (DeviceManager.name m) d = Some (PyDeviceManager m) /\
  dict_mem "NEST" d = false /\
  exists w2 view,
    managers w1 = (w2, Ok view) /\
    dict_get (DeviceManager.name m) view = Some (PyDeviceManager m) /\
    dict_get "NEST" view = Some (snd (synthetic b)) /\
    file devices_cache (disk w2) = Some (json_dumps (PyDict d)).
Proof.
  intros HnN HnD Hb H d w1. subst w1.
  destruct (managers_view_facts _ _ _ H) as (b' & Hb' & _ & HN & HD & HS & Hnd & Hu).
  rewrite (add_manager_eval _ _ _ m H). fold d. cbn [fst snd].
  assert (dict_get (DeviceManager.name m) d = Some (PyDeviceManager m)) as Hget.
  { unfold d. rewrite dict_get_pop_other by congruence. apply dict_get_set_same. }
  assert (dict_mem "NEST" d = false) as HdN by apply dict_mem_pop_same.
  assert (current_shape d = true) as Hshape.
  { apply current_shape_spec. unfold d. repeat split.
    - rewrite dict_mem_pop_other by discriminate.
      rewrite dict_mem_set, HD. apply orb_false_iff. split; [|reflexivity].
      now apply String.eqb_neq.
    - apply dict_mem_pop_same.
    - apply structured_pop, structured_set; [reflexivity | assumption]. }
  assert (NoDup (dict_keys d)) as Hndd.
  { unfold d. now apply NoDup_keys_pop, NoDup_keys_set. }
  assert (file devices_cache (disk (persisted d w0)) = Some (json_dumps (PyDict d))) as Hf1.
  { after_write. apply file_set_same. }
  repeat split; try assumption.
  - apply (loads_dumps C laws).
  - assert (base_url (persisted d w0) = (persisted d w0, Ok (PyBaseURLs b))) as Hb1.
    { apply (base_url_frame w); [assumption|].
      after_write.
      rewrite file_set_other by discriminate. exact Hu. }
    pose proof (managers_present _ b _ d Hb1 Hf1 (loads_dumps C laws _)) as Hm.
    rewrite (migrate_current_shape d Hshape) in Hm.
    assert (dict_truthy d = true) as Ht.
    { apply (dict_truthy_mem (DeviceManager.name m)).
      destruct (dict_mem (DeviceManager.name m) d) eqn:E; [reflexivity|].
      apply dict_get_None_mem in E. congruence. }
    rewrite Ht in Hm.
    eexists _, _. split; [exact Hm|]. repeat split.
    + rewrite (dict_get_update _ _ _ Hndd), Hget. reflexivity.
    + rewrite (dict_get_update_absent _ _ _ HdN). reflexivity.
Qed.

End ManagersWrite.

(* ================================================================== *)
(** * Reserved keys never reach the disk *)

Section ReservedKeys.
Context {C : Core}.

Lemma lacks_key_same_file k w w' :
  file devices_cache (disk w') = file devices_cache (disk w) ->
  disk_lacks_key k w -> disk_lacks_key k w'.
Proof. unfold disk_lacks_key. now intros ->. Qed.

Lemma lacks_key_unlinked k w : disk_lacks_key k (fst (unlink devices_cache w)).
Proof. exact I. Qed.

(** The reads and writes of the other three partitions leave the devices
    file alone. *)
Lemma tokens_state w : fst (tokens w) = w.
Proof.
  unfold tokens, bind, read_text, loads.
  destruct (file tokens_cache (disk w)) as [s|]; [|reflexivity].
  destruct (str_falsy s); [reflexivity|].
  now destruct (json_loads s).
Qed.

Lemma connected_device_devices w :
  file devices_cache (disk (fst (connected_device w))) = file devices_cache (disk w).
Proof.
  unfold connected_device, bind, read_text, loads.
  destruct (file connected_cache (disk w)) as [s|]; [|reflexivity].
  destruct (str_falsy s); [reflexivity|].
  destruct (json_loads s) as [v|]; [|reflexivity].
  unfold ret. destruct (isinstance_Device v); reflexivity.
Qed.

Lemma other_partitions_keep_devices (o : op) (w : world) :
  match o with
  | GetManagers | AddManager _ | RemoveManager _ => True
  | _ => file devices_cache (disk (step o w)) = file devices_cache (disk w)
  end.
Proof.
  destruct o as [ |t| | | | |d| | ]; cbn [step]; trivial.
  - now rewrite tokens_state.
  - now destruct t.
  - apply connected_device_devices.
  - now destruct d.
  - now rewrite base_url_state.
Qed.

Context (laws : CoreLaws C).

Lemma lacks_key_persisted k d w :
  dict_mem k d = false -> disk_lacks_key k (persisted d w).
Proof.
  intros H. unfold disk_lacks_key. after_write.
  rewrite file_set_same. exists d. split; [apply (loads_dumps C laws) | assumption].
Qed.

(** A [managers] read keeps a reserved key off the disk, whether it returns
    or raises. *)
Lemma managers_keeps_key_off k w :
  k = "NEST" \/ k = "DEFAULT" ->
  disk_lacks_key k w -> disk_lacks_key k (fst (managers w)).
Proof.
  intros Hk Hinv.
  destruct (managers_cases w) as [[e H]|[(b & _ & _ & H)|(b & s & d & _ & _ & _ & H)]];
    rewrite H; cbn [fst]; try assumption.
  apply lacks_key_persisted.
  destruct Hk as [->| ->]; [apply migrate_lacks_NEST | apply migrate_lacks_DEFAULT].
Qed.

Lemma add_manager_keeps_NEST_off m w :
  disk_lacks_key "NEST" w -> disk_lacks_key "NEST" (fst (add_manager m w)).
Proof.
  intros Hinv. pose proof (managers_keeps_key_off "NEST" w (or_introl eq_refl) Hinv) as Hm.
  destruct (managers w) as [w0 [view|e]] eqn:H; cbn [fst] in Hm.
  - rewrite (add_manager_eval _ _ _ m H). cbn [fst].
    apply lacks_key_persisted, dict_mem_pop_same.
  - now rewrite (add_manager_raises _ _ _ m H).
Qed.

Lemma add_manager_keeps_DEFAULT_off m w :
  DeviceManager.name m <> "DEFAULT" ->
  disk_lacks_key "DEFAULT" w -> disk_lacks_key "DEFAULT" (fst (add_manager m w)).
Proof.
  intros Hne Hinv.
  pose proof (managers_keeps_key_off "DEFAULT" w (or_intror eq_refl) Hinv) as Hm.
  destruct (managers w) as [w0 [view|e]] eqn:H; cbn [fst] in Hm.
  - rewrite (add_manager_eval _ _ _ m H). cbn [fst].
    destruct (managers_view_facts _ _ _ H) as (b & _ & _ & _ & HD & _).
    apply lacks_key_persisted.
    rewrite dict_mem_pop_other by discriminate.
    rewrite dict_mem_set, HD. apply orb_false_iff. split; [|reflexivity].
    now apply String.eqb_neq.
  - now rewrite (add_manager_raises _ _ _ m H).
Qed.

Lemma remove_manager_keeps_key_off k name w :
  k = "NEST" \/ k = "DEFAULT" ->
  disk_lacks_key k w -> disk_lacks_key k (fst (remove_manager name w)).
Proof.
  intros Hk Hinv. pose proof (managers_keeps_key_off k w Hk Hinv) as Hm.
  destruct (managers w) as [w0 [view|e]] eqn:H; cbn [fst] in Hm.
  2:{ now rewrite (remove_manager_raises _ _ _ name H). }
  destruct (String.eqb_spec name "NEST") as [->|Hne].
  { now rewrite (remove_manager_NEST_raises _ _ _ H). }
  rewrite (remove_manager_eval _ _ _ _ H Hne). cbn [fst].
  destruct (dict_truthy _); [|apply lacks_key_unlinked].
  apply lacks_key_persisted.
  destruct Hk as [->| ->]; [apply dict_mem_pop_same|].
  destruct (managers_view_facts _ _ _ H) as (b & _ & _ & _ & HD & _).
  rewrite dict_mem_pop_other by discriminate.
  destruct (String.eqb_spec name "DEFAULT") as [->|Hd].
  - apply dict_mem_pop_same.
  - now rewrite dict_mem_pop_other.
Qed.

Lemma step_keeps_NEST_off o w :
  disk_lacks_key "NEST" w -> disk_lacks_key "NEST" (step o w).
Proof.
  intros Hinv. pose proof (other_partitions_keep_devices o w) as Hframe.
  destruct o; try (now apply (lacks_key_same_file _ w)).
  - now apply managers_keeps_key_off; [left|].
  - now apply add_manager_keeps_NEST_off.
  - now apply remove_manager_keeps_key_off; [left|].
Qed.

Lemma step_keeps_DEFAULT_off o w :
  adds_DEFAULT o = false ->
  disk_lacks_key "DEFAULT" w -> disk_lacks_key "DEFAULT" (step o w).
Proof.
  intros Hadd Hinv. pose proof (other_partitions_keep_devices o w) as Hframe.
  destruct o; try (now apply (lacks_key_same_file _ w)).
  - now apply managers_keeps_key_off; [right|].
  - apply add_manager_keeps_DEFAULT_off; [|assumption].
    now apply String.eqb_neq.
  - now apply remove_manager_keeps_key_off; [right|].
Qed.

Lemma run_keeps_NEST_off ops : forall w,
  disk_lacks_key "NEST" w -> disk_lacks_key "NEST" (run ops w).
Proof.
  unfold run. induction ops as [|o ops IH]; intros w H; simpl; [assumption|].
  now apply IH, step_keeps_NEST_off.
Qed.

Lemma run_keeps_DEFAULT_off ops : forall w,
  forallb (fun o => negb (adds_DEFAULT o)) ops = true ->
  disk_lacks_key "DEFAULT" w -> disk_lacks_key "DEFAULT" (run ops w).
Proof.
  unfold run. induction ops as [|o ops IH]; intros w Hall H; simpl; [assumption|].
  simpl in Hall. apply andb_true_iff in Hall as [Ho Hall].
  apply negb_true_iff in Ho.
  now apply IH, step_keeps_DEFAULT_off.
Qed.

End ReservedKeys.

(* ================================================================== *)
(** * Concrete scenarios, run with the reference codec *)

Lemma zero_length_file_reads_as_absent_witness :
  (Some "" = None \/ Some "" = Some "") /\
  tokens zero_length_world = (zero_length_world, Ok PyNone) /\
  connected_device zero_length_world = (zero_length_world, Ok PyNone) /\
  base_url zero_length_world = (zero_length_world, Ok (PyBaseURLs BaseURLs_default)).
Proof.
  split; [right; reflexivity|].
  destruct (zero_length_file_reads_as_absent (C := ref_core) zero_length_world (Some "")
              (or_intror eq_refl)) as (H1 & H2 & H3).
  exact (conj (H1 eq_refl) (conj (H2 eq_refl) (H3 eq_refl))).
Defined.

Lemma tokens_set_then_get_witness :
  CoreLaws ref_core /\
  tokens (fst (set_tokens (Some (Tokens.mk "access" "refresh")) fresh)) =
    (fst (set_tokens (Some (Tokens.mk "access" "refresh")) fresh),
     Ok (PyTokens (Tokens.mk "access" "refresh"))) /\
  tokens (fst (set_tokens None fresh)) = (fst (set_tokens None fresh), Ok PyNone) /\
  file tokens_cache (disk (fst (set_tokens None fresh))) = None.
Proof.
  split; [exact ref_core_laws|].
  destruct (tokens_set_then_get ref_core_laws (Tokens.mk "access" "refresh") fresh)
    as [[_ H1] [_ [H2 H3]]].
  exact (conj H1 (conj H2 H3)).
Defined.

Lemma stale_connected_device_is_purged_witness :
  CoreLaws ref_core /\
  file connected_cache (disk stale_world) =
    Some (json_dumps (PyDeviceManager foo_manager)) /\
  json_loads (json_dumps (PyDeviceManager foo_manager)) = Some (PyDeviceManager foo_manager) /\
  isinstance_Device (PyDeviceManager foo_manager) = false /\
  snd (connected_device stale_world) = Ok (PyDeviceManager foo_manager) /\
  trace (fst (connected_device stale_world)) =
    [Warning outdated_msg; Unlink connected_cache] /\
  file connected_cache (disk (fst (connected_device stale_world))) = None /\
  connected_device (fst (connected_device stale_world)) =
    (fst (connected_device stale_world), Ok PyNone).
Proof.
  split; [exact ref_core_laws|].
  do 3 (split; [reflexivity|]).
  destruct (stale_connected_device_is_purged ref_core_laws stale_world
              (RefCodec.dumps (PyDeviceManager foo_manager)) (PyDeviceManager foo_manager)
              eq_refl eq_refl eq_refl) as (H1 & H2 & _ & _ & H3 & H4).
  exact (conj H1 (conj H2 (conj H3 H4))).
Defined.

Lemma empty_migration_fails_loudly_witness :
  file devices_cache (disk legacy_only_world) =
    Some (json_dumps (PyDict [("DEFAULT", PyStr "z")])) /\
  json_loads (json_dumps (PyDict [("DEFAULT", PyStr "z")])) =
    Some (PyDict [("DEFAULT", PyStr "z")]) /\
  migrate [("DEFAULT", PyStr "z")] = [] /\
  snd (managers legacy_only_world) = Raise AssertionError.
Proof.
  do 3 (split; [reflexivity|]).
  apply (empty_migration_fails_loudly (C := ref_core) legacy_only_world _ [("DEFAULT", PyStr "z")]
           eq_refl eq_refl eq_refl) with (b := BaseURLs_default).
  reflexivity.
Defined.

Lemma legacy_mapping_is_migrated_witness :
  base_url legacy_world = (legacy_world, Ok (PyBaseURLs BaseURLs_default)) /\
  json_loads (json_dumps (PyDict [("DEFAULT", PyStr "z"); ("bar", PyStr "http://y")])) =
    Some (PyDict [("DEFAULT", PyStr "z"); ("bar", PyStr "http://y")]) /\
  snd (managers legacy_world) =
    Ok [synthetic BaseURLs_default; ("bar", PyDeviceManager bar_manager)] /\
  file devices_cache (disk (fst (managers legacy_world))) =
    Some (json_dumps (PyDict [("bar", PyDeviceManager bar_manager)])).
Proof.
  do 2 (split; [reflexivity|]).
  destruct (legacy_mapping_is_migrated (C := ref_core) legacy_world _ BaseURLs_default
              eq_refl eq_refl eq_refl) as (H1 & H2 & _).
  split; [exact (f_equal snd H1) | exact H2].
Defined.

(** C3, refuted as stated: the stored mapping is in the current shape and
    migration changes nothing, yet the read writes the devices file. *)
Lemma read_rewrites_unchanged_mapping :
  current_shape [("foo", PyDeviceManager foo_manager)] = true /\
  migrate [("foo", PyDeviceManager foo_manager)] = [("foo", PyDeviceManager foo_manager)] /\
  snd (managers foo_world) =
    Ok [synthetic BaseURLs_default; ("foo", PyDeviceManager foo_manager)] /\
  trace (fst (managers foo_world)) =
    [WriteText devices_cache (json_dumps (PyDict [("foo", PyDeviceManager foo_manager)]))] /\
  existsb (writes_to devices_cache) (trace (fst (managers foo_world))) = true.
Proof. repeat split. Qed.

Lemma managers_read_always_rewrites_witness :
  base_url foo_world = (foo_world, Ok (PyBaseURLs BaseURLs_default)) /\
  current_shape [("foo", PyDeviceManager foo_manager)] = true /\
  trace (fst (managers foo_world)) =
    [WriteText devices_cache (json_dumps (PyDict [("foo", PyDeviceManager foo_manager)]))] /\
  disk (fst (managers foo_world)) = disk foo_world.
Proof.
  do 2 (split; [reflexivity|]).
  destruct (managers_read_always_rewrites (C := ref_core) foo_world _
              [("foo", PyDeviceManager foo_manager)] BaseURLs_default
              eq_refl eq_refl eq_refl) as (H1 & _ & H3).
  split; [exact H1|].
  destruct (H3 eq_refl) as (_ & _ & H4). exact (H4 eq_refl).
Defined.

(** C1, refuted as stated: [remove_manager("NEST")] raises [KeyError] on a
    fresh store, and on a legacy file holding only the old default entry
    [remove_manager("foo")] raises the [AssertionError] of the read. *)
Lemma remove_manager_can_raise :
  remove_manager "NEST" fresh = (fresh, Raise (KeyError "NEST")) /\
  snd (remove_manager "foo" legacy_only_world) = Raise AssertionError.
Proof. split; reflexivity. Qed.

Lemma remove_manager_returns_witness :
  "ghost" <> "NEST" /\
  snd (managers foo_world) =
    Ok [synthetic BaseURLs_default; ("foo", PyDeviceManager foo_manager)] /\
  dict_mem "ghost" [synthetic BaseURLs_default; ("foo", PyDeviceManager foo_manager)] = false /\
  snd (remove_manager "ghost" foo_world) = Ok tt /\
  file devices_cache (disk (fst (remove_manager "ghost" foo_world))) =
    Some (json_dumps (PyDict [("foo", PyDeviceManager foo_manager)])).
Proof.
  split; [discriminate|]. do 2 (split; [reflexivity|]).
  destruct (remove_manager_returns (C := ref_core) "ghost" foo_world (fst (managers foo_world))
              [synthetic BaseURLs_default; ("foo", PyDeviceManager foo_manager)])
    as (H1 & H2 & _); [discriminate | reflexivity |].
  split; [exact H1 | exact (f_equal (fun w => file devices_cache (disk w)) H2)].
Defined.

(** C8, refuted as stated: a manager named ["NEST"] added to a fresh store
    leaves the encoding of the empty mapping on disk and the next read
    raises; a manager named ["DEFAULT"] is written, then dropped again by
    the next read, which raises as well. *)
Lemma add_manager_reserved_name_is_lost :
  snd (add_manager (DeviceManager.mk "NEST" "http://mine") fresh) = Ok tt /\
  file devices_cache (disk (fst (add_manager (DeviceManager.mk "NEST" "http://mine") fresh))) =
    Some (json_dumps (PyDict [])) /\
  snd (managers (fst (add_manager (DeviceManager.mk "NEST" "http://mine") fresh))) =
    Raise AssertionError /\
  snd (add_manager (DeviceManager.mk "DEFAULT" "http://mine") fresh) = Ok tt /\
  snd (managers (fst (add_manager (DeviceManager.mk "DEFAULT" "http://mine") fresh))) =
    Raise AssertionError.
Proof. repeat split. Qed.

Lemma add_manager_then_managers_witness :
  CoreLaws ref_core /\
  DeviceManager.name foo_manager <> "NEST" /\
  DeviceManager.name foo_manager <> "DEFAULT" /\
  managers fresh = (fresh, Ok [synthetic BaseURLs_default]) /\
  snd (add_manager foo_manager fresh) = Ok tt /\
  file devices_cache (disk (fst (add_manager foo_manager fresh))) =
    Some (json_dumps (PyDict [("foo", PyDeviceManager foo_manager)])) /\
  exists w2 view,
    managers (fst (add_manager foo_manager fresh)) = (w2, Ok view) /\
    dict_get "foo" view = Some (PyDeviceManager foo_manager) /\
    dict_get "NEST" view = Some (snd (synthetic BaseURLs_default)).
Proof.
  split; [exact ref_core_laws|].
  split; [discriminate|]. split; [discriminate|]. split; [reflexivity|].
  destruct (add_manager_then_managers ref_core_laws foo_manager fresh fresh
              [synthetic BaseURLs_default] BaseURLs_default)
    as (H1 & H2 & _ & _ & _ & w2 & view & H3 & H4 & H5 & _);
    [discriminate | discriminate | reflexivity | reflexivity |].
  split; [exact H1|]. split; [exact H2|].
  exists w2, view. exact (conj H3 (conj H4 H5)).
Defined.

(** C7, refuted as stated: adding a manager named ["DEFAULT"] puts the key
    ["DEFAULT"] on disk; and on a legacy file next to a base-URL file that
    does not decode, the read raises before it looks at the devices file,
    so the key ["DEFAULT"] stays on disk. *)
Lemma add_manager_writes_DEFAULT :
  snd (add_manager (DeviceManager.mk "DEFAULT" "http://z") fresh) = Ok tt /\
  disk_has_key "DEFAULT" (fst (add_manager (DeviceManager.mk "DEFAULT" "http://z") fresh)) /\
  managers legacy_junk_urls_world = (legacy_junk_urls_world, Raise JSONDecodeError) /\
  disk_has_key "DEFAULT" legacy_junk_urls_world.
Proof.
  split; [reflexivity|]. split; [eexists _, _; repeat split|].
  split; [reflexivity|]. eexists _, _. repeat split.
Qed.

(** C2, evaluated where the code breaks it: reading a legacy file that
    holds only the old default entry writes the encoding of the empty
    mapping and only then fails the assertion, so the empty mapping stays
    on disk (and every later read fails the same way); adding a manager
    named ["NEST"] to a fresh store writes the empty mapping as well. *)
Theorem empty_mapping_reaches_disk :
  (snd (managers legacy_only_world) = Raise AssertionError /\
   file devices_cache (disk (fst (managers legacy_only_world))) =
     Some (json_dumps (PyDict [])) /\
   disk_holds_empty_mapping (fst (managers legacy_only_world)) /\
   snd (managers (fst (managers legacy_only_world))) = Raise AssertionError) /\
  (snd (add_manager (DeviceManager.mk "NEST" "http://mine") fresh) = Ok tt /\
   disk_holds_empty_mapping (fst (add_manager (DeviceManager.mk "NEST" "http://mine") fresh))).
Proof.
  repeat split; try (eexists; split; reflexivity).
Qed.

(* ================================================================== *)
(** * Further facts about dictionaries *)

Lemma dict_set_absent k v d : dict_mem k d = false -> dict_set k v d = d ++ [(k, v)].
Proof.
  unfold dict_mem. induction d as [|[k0 v0] d IH]; simpl; [reflexivity|].
  intros H. apply orb_false_iff in H as [E H]. rewrite E. now rewrite IH.
Qed.

Lemma dict_set_same_value k v d : dict_get k d = Some v -> dict_set k v d = d.
Proof.
  induction d as [|[k0 v0] d IH]; simpl; [discriminate|].
  destruct (k0 =? k) eqn:E.
  - apply String.eqb_eq in E. intros H. congruence.
  - intros H. now rewrite IH.
Qed.

Lemma dict_pop_app k d1 d2 : dict_pop k (d1 ++ d2) = dict_pop k d1 ++ dict_pop k d2.
Proof. apply filter_app. Qed.

(** Setting a new key and popping it again gives the dict back. *)
Lemma dict_pop_set_absent k v d : dict_mem k d = false -> dict_pop k (dict_set k v d) = d.
Proof.
  intros H. rewrite (dict_set_absent _ _ _ H), dict_pop_app, (dict_pop_absent _ _ H).
  unfold dict_pop. simpl. rewrite String.eqb_refl. simpl. apply app_nil_r.
Qed.

(** Entries with fresh, unique keys are appended by [update]. *)
Lemma dict_update_app d2 : forall d1,
  NoDup (dict_keys d2) ->
  (forall k, dict_mem k d2 = true -> dict_mem k d1 = false) ->
  dict_update d1 d2 = d1 ++ d2.
Proof.
  unfold dict_update. induction d2 as [|[k0 v0] d2 IH]; intros d1 Hnd Hdis; simpl.
  - now rewrite app_nil_r.
  - inversion Hnd as [|? ? Hnin Hnd']; subst.
    assert (dict_mem k0 d1 = false) as H0.
    { apply Hdis. unfold dict_mem. simpl. now rewrite String.eqb_refl. }
    rewrite (dict_set_absent _ _ _ H0), (IH _ Hnd').
    + now rewrite <- app_assoc.
    + intros k Hk. unfold dict_mem. rewrite existsb_app. simpl.
      rewrite orb_false_r. apply orb_false_iff. split.
      * apply Hdis. unfold dict_mem in *. simpl. rewrite Hk. apply orb_true_r.
      * apply String.eqb_neq. intros ->. apply Hnin. now apply dict_mem_In.
Qed.

(** An entry whose key [d2] does not mention keeps its place in front. *)
Lemma dict_update_cons k v d2 : forall d1,
  dict_mem k d2 = false ->
  dict_update ((k, v) :: d1) d2 = (k, v) :: dict_update d1 d2.
Proof.
  unfold dict_update, dict_mem. induction d2 as [|[k0 v0] d2 IH]; intros d1 H; simpl in *.
  - reflexivity.
  - apply orb_false_iff in H as [E H].
    rewrite String.eqb_sym in E. rewrite E. now apply IH.
Qed.

(** A second assignment to the same key replaces the first. *)
Lemma dict_set_set k v1 v2 d : dict_set k v2 (dict_set k v1 d) = dict_set k v2 d.
Proof.
  induction d as [|[k0 v0] d IH]; simpl.
  - now rewrite String.eqb_refl.
  - destruct (k0 =? k) eqn:E; simpl.
    + now rewrite String.eqb_refl.
    + now rewrite E, IH.
Qed.

Lemma dict_set_nonempty k v d : dict_truthy (dict_set k v d) = true.
Proof. destruct d as [|[k0 v0] d]; simpl; [reflexivity | now destruct (k0 =? k)]. Qed.

Lemma dict_get_rebuild k d :
  dict_get k (map rebuild_entry d) = option_map (rebuilt k) (dict_get k d).
Proof.
  induction d as [|[k0 v0] d IH]; simpl; [reflexivity|].
  assert (fst (rebuild_entry (k0, v0)) = k0) as Hk by (unfold rebuild_entry; now destruct v0).
  destruct (rebuild_entry (k0, v0)) as [k1 v1] eqn:E. simpl in Hk. subst k1.
  destruct (k0 =? k) eqn:Ek; [|exact IH].
  apply String.eqb_eq in Ek. subst k0. simpl. unfold rebuilt. now rewrite E.
Qed.

Lemma current_shape_set k v d :
  k <> "NEST" -> k <> "DEFAULT" -> isinstance_str v = false ->
  current_shape d = true -> current_shape (dict_set k v d) = true.
Proof.
  intros HN HD Hv H. apply current_shape_spec in H as (H1 & H2 & H3).
  apply current_shape_spec. repeat split.
  - rewrite dict_mem_set, H1. apply orb_false_iff. split; [|reflexivity].
    now apply String.eqb_neq.
  - rewrite dict_mem_set, H2. apply orb_false_iff. split; [|reflexivity].
    now apply String.eqb_neq.
  - now apply structured_set.
Qed.

Lemma dict_mem_pop k k' d : dict_mem k' d = false -> dict_mem k' (dict_pop k d) = false.
Proof.
  intros H. destruct (String.eqb_spec k k') as [->|Hne].
  - apply dict_mem_pop_same.
  - now rewrite dict_mem_pop_other.
Qed.

Lemma current_shape_pop k d : current_shape d = true -> current_shape (dict_pop k d) = true.
Proof.
  intros H. apply current_shape_spec in H as (H1 & H2 & H3).
  apply current_shape_spec. auto using dict_mem_pop, structured_pop.
Qed.

(* ================================================================== *)
(** * Every operation stays within its own partition *)

Lemma path_eqb_refl p : path_eqb p p = true.
Proof. now destruct p. Qed.

Lemma effect_refl p w : effect_within p w w.
Proof. exists []. now rewrite app_nil_r. Qed.

Lemma effect_trans p w1 w2 w3 :
  effect_within p w1 w2 -> effect_within p w2 w3 -> effect_within p w1 w3.
Proof.
  intros (e1 & T1 & F1 & D1) (e2 & T2 & F2 & D2). exists (e1 ++ e2). repeat split.
  - now rewrite T2, T1, app_assoc.
  - rewrite forallb_app. now rewrite F1, F2.
  - intros q Hq. now rewrite D2, D1.
Qed.

Lemma effect_write p s w : effect_within p w (fst (write_text p s w)).
Proof.
  exists [WriteText p s]. repeat split.
  - simpl. now rewrite path_eqb_refl.
  - intros q Hq. unfold write_text. cbn [fst disk]. now apply file_set_other.
Qed.

Lemma effect_unlink p w : effect_within p w (fst (unlink p w)).
Proof.
  exists [Unlink p]. repeat split.
  - simpl. now rewrite path_eqb_refl.
  - intros q Hq. unfold unlink. cbn [fst disk]. now apply file_set_other.
Qed.

Section Partitions.
Context {C : Core}.

Lemma managers_effect w : effect_within devices_cache w (fst (managers w)).
Proof.
  destruct (managers_cases w) as [[e H]|[(b & _ & _ & H)|(b & s & d & _ & _ & _ & H)]];
    rewrite H; cbn [fst]; try apply effect_refl.
  apply effect_write.
Qed.

Lemma add_manager_effect m w : effect_within devices_cache w (fst (add_manager m w)).
Proof.
  pose proof (managers_effect w) as Hm.
  destruct (managers w) as [w0 [view|e]] eqn:H; cbn [fst] in Hm.
  - rewrite (add_manager_eval _ _ _ m H). cbn [fst].
    eapply effect_trans; [exact Hm | apply effect_write].
  - now rewrite (add_manager_raises _ _ _ m H).
Qed.

Lemma remove_manager_effect name w :
  effect_within devices_cache w (fst (remove_manager name w)).
Proof.
  pose proof (managers_effect w) as Hm.
  destruct (managers w) as [w0 [view|e]] eqn:H; cbn [fst] in Hm.
  2:{ now rewrite (remove_manager_raises _ _ _ name H). }
  destruct (String.eqb_spec name "NEST") as [->|Hne].
  { now rewrite (remove_manager_NEST_raises _ _ _ H). }
  rewrite (remove_manager_eval _ _ _ _ H Hne). cbn [fst].
  eapply effect_trans; [exact Hm|].
  destruct (dict_truthy _); [apply effect_write | apply effect_unlink].
Qed.

Lemma connected_device_effect w :
  effect_within connected_cache w (fst (connected_device w)).
Proof.
  unfold connected_device, bind, read_text, loads.
  destruct (file connected_cache (disk w)) as [s|]; [|apply effect_refl].
  destruct (str_falsy s); [apply effect_refl|].
  destruct (json_loads s) as [v|]; [|apply effect_refl].
  unfold ret. destruct (isinstance_Device v); cbn [negb fst]; [apply effect_refl|].
  exists [Warning outdated_msg; Unlink connected_cache]. repeat split.
  - unfold log_warning, set_connected_device, unlink. cbn [fst trace].
    now rewrite <- app_assoc.
  - intros q Hq. unfold log_warning, set_connected_device, unlink. cbn [fst disk].
    now apply file_set_other.
Qed.

Lemma step_effect o w : effect_within (partition_of o) w (step o w).
Proof.
  destruct o as [ |t| |m|n| |d| |b]; cbn [step partition_of].
  - rewrite tokens_state. apply effect_refl.
  - destruct t; [apply effect_write | apply effect_unlink].
  - apply managers_effect.
  - apply add_manager_effect.
  - apply remove_manager_effect.
  - apply connected_device_effect.
  - destruct d; [apply effect_write | apply effect_unlink].
  - rewrite base_url_state. apply effect_refl.
  - apply effect_write.
Qed.

(** X1: every operation changes no file but the one of its own partition,
    and everything it logs is a write or a delete of that file (or, for the
    connected-device read, its warning), whether it returns or raises. *)
Theorem step_stays_in_partition (o : op) (w : world) :
  exists evs,
    trace (step o w) = trace w ++ evs /\
    forallb (concerns (partition_of o)) evs = true /\
    forall q, q <> partition_of o -> file q (disk (step o w)) = file q (disk w).
Proof. exact (step_effect o w). Qed.

(** X2: a sequence of operations none of which belongs to partition [p]
    leaves the file of [p] exactly as it was. *)
Theorem run_leaves_other_partitions (ops : list op) (w : world) (p : path) :
  forallb (fun o => negb (path_eqb (partition_of o) p)) ops = true ->
  file p (disk (run ops w)) = file p (disk w).
Proof.
  unfold run. revert w. induction ops as [|o ops IH]; intros w H; simpl; [reflexivity|].
  simpl in H. apply andb_true_iff in H as [Ho H].
  rewrite (IH _ H).
  destruct (step_effect o w) as (_ & _ & _ & Hframe). apply Hframe.
  intros ->. now rewrite path_eqb_refl in Ho.
Qed.

End Partitions.

(* ================================================================== *)
(** * The device-manager partition as a dictionary *)

Section HeldStore.
Context {C : Core} (laws : CoreLaws C).

Lemma holds_persisted users w :
  dict_truthy users = true -> current_shape users = true -> NoDup (dict_keys users) ->
  holds (persisted users w) users.
Proof.
  intros Ht Hs Hnd. unfold holds. after_write. rewrite file_set_same.
  repeat split; try assumption. apply (loads_dumps C laws).
Qed.

Lemma holds_unlinked w : holds (fst (unlink devices_cache w)) [].
Proof. reflexivity. Qed.

Lemma holds_shape w users :
  holds w users ->
  current_shape users = true /\ NoDup (dict_keys users).
Proof.
  unfold holds. destruct (file devices_cache (disk w)).
  - tauto.
  - intros ->. split; [reflexivity | constructor].
Qed.

Lemma view_of_users b users :
  current_shape users = true -> NoDup (dict_keys users) ->
  dict_update [synthetic b] users = synthetic b :: users.
Proof.
  intros Hs Hnd. apply current_shape_spec in Hs as (_ & HN & _).
  rewrite dict_update_app; [reflexivity | assumption |].
  intros k Hk. unfold dict_mem, synthetic. cbn [existsb fst]. rewrite orb_false_r.
  apply String.eqb_neq. intros <-. congruence.
Qed.

(** A read of a store that holds [users]. *)
Lemma managers_on_held w users b :
  holds w users ->
  base_url w = (w, Ok (PyBaseURLs b)) ->
  snd (managers w) = Ok (synthetic b :: users) /\
  holds (fst (managers w)) users.
Proof.
  intros H Hb. pose proof (holds_shape _ _ H) as [Hs Hnd].
  unfold holds in H. destruct (file devices_cache (disk w)) as [s|] eqn:Hf.
  - destruct H as (Hl & Ht & _ & _).
    rewrite (managers_present w b s users Hb Hf Hl).
    rewrite (migrate_current_shape _ Hs), Ht. cbn [fst snd].
    rewrite (view_of_users b users Hs Hnd). split; [reflexivity|].
    now apply holds_persisted.
  - subst users. rewrite (managers_absent w b Hb Hf). cbn [fst snd].
    split; [reflexivity|]. unfold holds. now rewrite Hf.
Qed.

Lemma managers_on_held_eq w users b :
  holds w users ->
  base_url w = (w, Ok (PyBaseURLs b)) ->
  managers w = (fst (managers w), Ok (synthetic b :: users)).
Proof.
  intros H Hb. destruct (managers_on_held w users b H Hb) as [Hv _].
  destruct (managers w) as [w0 r]. simpl in *. now subst r.
Qed.

Lemma pop_NEST_view b users :
  dict_mem "NEST" users = false -> dict_pop "NEST" (synthetic b :: users) = users.
Proof. intros H. unfold dict_pop. simpl. now apply dict_pop_absent. Qed.

(** [add_manager] on a store that holds [users]: what is written. *)
Lemma add_on_held_eq w users b m :
  holds w users ->
  base_url w = (w, Ok (PyBaseURLs b)) ->
  DeviceManager.name m <> "NEST" ->
  DeviceManager.name m <> "DEFAULT" ->
  add_manager m w =
    (persisted (dict_set (DeviceManager.name m) (PyDeviceManager m) users) (fst (managers w)),
     Ok tt).
Proof.
  intros H Hb HN HD. pose proof (holds_shape _ _ H) as [Hs Hnd].
  rewrite (add_manager_eval _ _ _ m (managers_on_held_eq w users b H Hb)).
  assert (dict_set (DeviceManager.name m) (PyDeviceManager m) (synthetic b :: users) =
          synthetic b :: dict_set (DeviceManager.name m) (PyDeviceManager m) users) as ->.
  { unfold synthetic. cbn [dict_set]. apply not_eq_sym in HN.
    apply String.eqb_neq in HN. now rewrite HN. }
  assert (current_shape (dict_set (DeviceManager.name m) (PyDeviceManager m) users) = true)
    as Hs' by (now apply current_shape_set).
  now rewrite pop_NEST_view by (now apply current_shape_spec in Hs').
Qed.

(** [add_manager] on a store that holds [users]. *)
Lemma add_on_held w users b m :
  holds w users ->
  base_url w = (w, Ok (PyBaseURLs b)) ->
  DeviceManager.name m <> "NEST" ->
  DeviceManager.name m <> "DEFAULT" ->
  snd (add_manager m w) = Ok tt /\
  holds (fst (add_manager m w))
        (dict_set (DeviceManager.name m) (PyDeviceManager m) users).
Proof.
  intros H Hb HN HD. pose proof (holds_shape _ _ H) as [Hs Hnd].
  rewrite (add_on_held_eq w users b m H Hb HN HD).
  cbn [fst snd]. split; [reflexivity|].
  apply holds_persisted;
    [apply dict_set_nonempty | now apply current_shape_set | now apply NoDup_keys_set].
Qed.

(** [remove_manager] on a store that holds [users]. *)
Lemma remove_on_held w users b name :
  holds w users ->
  base_url w = (w, Ok (PyBaseURLs b)) ->
  name <> "NEST" ->
  snd (remove_manager name w) = Ok tt /\
  holds (fst (remove_manager name w)) (dict_pop name users).
Proof.
  intros H Hb HN. pose proof (holds_shape _ _ H) as [Hs Hnd].
  rewrite (remove_manager_eval _ _ _ _ (managers_on_held_eq w users b H Hb) HN).
  cbn [fst snd]. split; [reflexivity|].
  assert (dict_pop name (synthetic b :: users) = synthetic b :: dict_pop name users) as ->.
  { unfold dict_pop, synthetic. cbn [filter fst]. apply not_eq_sym in HN.
    apply String.eqb_neq in HN. now rewrite HN. }
  assert (current_shape (dict_pop name users) = true) as Hs' by (now apply current_shape_pop).
  rewrite pop_NEST_view by (now apply current_shape_spec in Hs').
  destruct (dict_truthy (dict_pop name users)) eqn:Ht.
  - apply holds_persisted; [assumption | assumption | now apply NoDup_keys_pop].
  - destruct (dict_pop name users); [apply holds_unlinked | discriminate].
Qed.

Lemma urls_readable_frame w w' :
  file urls_cache (disk w') = file urls_cache (disk w) ->
  urls_readable w -> urls_readable w'.
Proof. intros Hf [b Hb]. exists b. now apply (base_url_frame w). Qed.

Lemma holds_frame w w' users :
  file devices_cache (disk w') = file devices_cache (disk w) ->
  holds w users -> holds w' users.
Proof. unfold holds. now intros ->. Qed.

Lemma urls_readable_set b w : urls_readable (fst (set_base_url b w)).
Proof.
  exists b. unfold base_url, set_base_url, bind, read_text, write_text. cbn [fst disk].
  rewrite file_set_same. cbn iota beta.
  now rewrite (str_falsy_dumps laws), (loads_json_dumps laws).
Qed.

(** One well-named operation on a store that holds [users]. *)
Lemma step_on_held o w users :
  well_named o = true ->
  urls_readable w -> holds w users ->
  urls_readable (step o w) /\ holds (step o w) (apply_op o users).
Proof.
  intros Hwn Hu H.
  pose proof (step_effect o w) as (_ & _ & _ & Hframe).
  destruct o as [ |t| |m|n| |d| |b0]; cbn [apply_op partition_of] in *;
    try (split;
         [apply (urls_readable_frame w); [apply Hframe; discriminate | assumption]
         |apply (holds_frame w); [apply Hframe; discriminate | assumption]]).
  - destruct Hu as [b Hb]. split.
    + apply (urls_readable_frame w); [apply Hframe; discriminate | now exists b].
    + cbn [step]. now apply (managers_on_held w users b).
  - destruct Hu as [b Hb]. split.
    + apply (urls_readable_frame w); [apply Hframe; discriminate | now exists b].
    + cbn [step]. simpl in Hwn. apply andb_true_iff in Hwn as [H1 H2].
      apply negb_true_iff in H1, H2. apply String.eqb_neq in H1, H2.
      now apply (add_on_held w users b).
  - destruct Hu as [b Hb]. split.
    + apply (urls_readable_frame w); [apply Hframe; discriminate | now exists b].
    + cbn [step]. simpl in Hwn. apply negb_true_iff in Hwn. apply String.eqb_neq in Hwn.
      now apply (remove_on_held w users b).
  - cbn [step]. rewrite base_url_state. now split.
  - split.
    + cbn [step]. apply urls_readable_set.
    + apply (holds_frame w); [apply Hframe; discriminate | assumption].
Qed.

(** X3: on a store whose base URLs are readable and whose devices file
    holds the user mapping [users], every sequence of operations that uses
    no reserved name leaves the devices file holding the mapping obtained
    by running the same insertions and deletions on [users] as a
    dictionary, keeps the base URLs readable, and the next read returns
    that mapping behind the synthetic entry. *)
Theorem run_refines_dict (ops : list op) (w : world) (users : pydict) :
  forallb well_named ops = true ->
  urls_readable w ->
  holds w users ->
  holds (run ops w) (fold_left (fun d o => apply_op o d) ops users) /\
  exists b,
    base_url (run ops w) = (run ops w, Ok (PyBaseURLs b)) /\
    snd (managers (run ops w)) =
      Ok (synthetic b :: fold_left (fun d o => apply_op o d) ops users).
Proof.
  intros Hwn Hu H.
  assert (urls_readable (run ops w) /\
          holds (run ops w) (fold_left (fun d o => apply_op o d) ops users)) as [Hu' H'].
  { unfold run. revert w users Hwn Hu H.
    induction ops as [|o ops IH]; intros w users Hwn Hu H; simpl; [now split|].
    simpl in Hwn. apply andb_true_iff in Hwn as [Ho Hwn].
    destruct (step_on_held o w users Ho Hu H) as [Hu1 H1].
    now apply IH. }
  split; [assumption|]. destruct Hu' as [b Hb]. exists b. split; [assumption|].
  now apply managers_on_held.
Qed.

Lemma base_url_after_add w r m :
  base_url w = (w, r) ->
  base_url (fst (add_manager m w)) = (fst (add_manager m w), r).
Proof.
  intros Hb. apply (base_url_frame w); [assumption|].
  destruct (add_manager_effect m w) as (_ & _ & _ & Hframe).
  apply Hframe. discriminate.
Qed.

Lemma base_url_after_remove w r name :
  base_url w = (w, r) ->
  base_url (fst (remove_manager name w)) = (fst (remove_manager name w), r).
Proof.
  intros Hb. apply (base_url_frame w); [assumption|].
  destruct (remove_manager_effect name w) as (_ & _ & _ & Hframe).
  apply Hframe. discriminate.
Qed.

Lemma holds_nil_absent w : holds w [] -> file devices_cache (disk w) = None.
Proof.
  unfold holds. destruct (file devices_cache (disk w)); [|reflexivity].
  intros (_ & Ht & _). discriminate.
Qed.

(** What every view returned by [managers] is made of: the synthetic entry
    in front of a well-formed user mapping. *)
Lemma managers_view_shape w w' view :
  managers w = (w', Ok view) ->
  exists b,
    base_url w = (w, Ok (PyBaseURLs b)) /\
    view = synthetic b :: dict_pop "NEST" view /\
    current_shape (dict_pop "NEST" view) = true /\
    NoDup (dict_keys (dict_pop "NEST" view)) /\
    file urls_cache (disk w') = file urls_cache (disk w).
Proof.
  intros H. pose proof (managers_view_facts _ _ _ H) as (b0 & _ & _ & _ & _ & _ & _ & Hu).
  apply managers_Ok_inv in H as (b & Hb & Hcases).
  exists b. split; [assumption|].
  assert (exists users, view = synthetic b :: users /\ current_shape users = true /\
                        NoDup (dict_keys users)) as (users & -> & Hs & Hnd).
  { destruct Hcases as [(_ & _ & ->)|(s & d & _ & _ & _ & _ & ->)].
    - exists []. repeat split. constructor.
    - exists (dict_update [] (migrate d)). split; [|split].
      + unfold synthetic. apply dict_update_cons, migrate_lacks_NEST.
      + apply current_shape_spec. repeat split.
        * now rewrite dict_mem_update, migrate_lacks_DEFAULT.
        * now rewrite dict_mem_update, migrate_lacks_NEST.
        * apply structured_update; [reflexivity | apply migrate_structured].
      + apply NoDup_keys_update. constructor. }
  assert (dict_pop "NEST" (synthetic b :: users) = users) as ->.
  { apply pop_NEST_view. now apply current_shape_spec in Hs. }
  auto.
Qed.

(** [add_manager] after a read that returned the synthetic entry in front of
    [users]: [users] with the manager set is written. *)
Lemma add_after_read w w0 b users m :
  managers w = (w0, Ok (synthetic b :: users)) ->
  current_shape users = true ->
  DeviceManager.name m <> "NEST" ->
  add_manager m w =
    (persisted (dict_set (DeviceManager.name m) (PyDeviceManager m) users) w0, Ok tt).
Proof.
  intros H Hs HN. rewrite (add_manager_eval _ _ _ m H).
  assert (dict_set (DeviceManager.name m) (PyDeviceManager m) (synthetic b :: users) =
          synthetic b :: dict_set (DeviceManager.name m) (PyDeviceManager m) users) as ->.
  { unfold synthetic. cbn [dict_set]. apply not_eq_sym in HN.
    apply String.eqb_neq in HN. now rewrite HN. }
  rewrite pop_NEST_view; [reflexivity|].
  apply current_shape_spec in Hs as (_ & Hn & _).
  rewrite dict_mem_set, Hn. apply orb_false_iff. split; [|reflexivity].
  now apply String.eqb_neq.
Qed.

(** X4: on a store whose [managers] read succeeds (legacy files included),
    [remove_manager(name)], [name] other than ["NEST"], that leaves no user
    entry (the last manager is removed, or there was none) returns
    normally and deletes the devices file instead of writing an empty
    mapping; the next read returns the synthetic entry alone. *)
Theorem remove_last_manager_deletes_file (w w0 : world) (view : pydict) (name : string) :
  managers w = (w0, Ok view) ->
  name <> "NEST" ->
  dict_pop "NEST" (dict_pop name view) = [] ->
  snd (remove_manager name w) = Ok tt /\
  file devices_cache (disk (fst (remove_manager name w))) = None /\
  exists b,
    base_url w = (w, Ok (PyBaseURLs b)) /\
    managers (fst (remove_manager name w)) =
      (fst (remove_manager name w), Ok [synthetic b]).
Proof.
  intros H HN Hlast.
  destruct (managers_view_shape _ _ _ H) as (b & Hb & _ & _ & _ & Hu).
  rewrite (remove_manager_eval _ _ _ _ H HN), Hlast. cbn [dict_truthy fst snd].
  split; [reflexivity|].
  assert (file devices_cache (disk (fst (unlink devices_cache w0))) = None) as Hf.
  { unfold unlink. cbn [fst disk]. apply file_set_same. }
  split; [assumption|]. exists b. split; [assumption|].
  apply managers_absent; [|assumption].
  apply (base_url_frame w); [assumption|].
  unfold unlink. cbn [fst disk]. now rewrite file_set_other by discriminate.
Qed.

(** X5: after [remove_manager(name)] on a store holding [users], the next
    read no longer lists [name] and returns every other entry, the
    synthetic one included, as before and in the same order. *)
Theorem remove_manager_then_managers (w : world) (users : pydict) (b : BaseURLs.t)
        (name : string) :
  holds w users ->
  base_url w = (w, Ok (PyBaseURLs b)) ->
  name <> "NEST" ->
  snd (remove_manager name w) = Ok tt /\
  snd (managers (fst (remove_manager name w))) = Ok (synthetic b :: dict_pop name users) /\
  dict_mem name (synthetic b :: dict_pop name users) = false /\
  (forall k, k <> name ->
     dict_get k (synthetic b :: dict_pop name users) = dict_get k (synthetic b :: users)).
Proof.
  intros H Hb HN.
  destruct (remove_on_held w users b name H Hb HN) as [Hr H'].
  split; [assumption|]. split.
  { now apply (managers_on_held _ _ b H'), base_url_after_remove. }
  split.
  - unfold dict_mem, synthetic. cbn [existsb fst]. apply orb_false_iff. split.
    + apply String.eqb_neq. congruence.
    + apply dict_mem_pop_same.
  - intros k Hk. unfold synthetic. cbn [dict_get].
    destruct ("NEST" =? k); [reflexivity|].
    apply dict_get_pop_other. congruence.
Qed.

(** X6: on a store whose [managers] read succeeds (legacy files included),
    adding a manager under an unreserved name that the view does not list
    and removing that name again restores the user mapping: both calls
    return, and the next read returns the view from before the two calls. *)
Theorem add_then_remove_restores (w w0 : world) (view : pydict) (m : DeviceManager.t) :
  managers w = (w0, Ok view) ->
  DeviceManager.name m <> "NEST" ->
  DeviceManager.name m <> "DEFAULT" ->
  dict_mem (DeviceManager.name m) view = false ->
  snd (add_manager m w) = Ok tt /\
  snd (remove_manager (DeviceManager.name m) (fst (add_manager m w))) = Ok tt /\
  holds (fst (remove_manager (DeviceManager.name m) (fst (add_manager m w))))
        (dict_pop "NEST" view) /\
  snd (managers (fst (remove_manager (DeviceManager.name m) (fst (add_manager m w))))) =
    Ok view.
Proof.
  intros H HN HD Hnew.
  destruct (managers_view_shape _ _ _ H) as (b & Hb & Hview & Hs & Hnd & _).
  set (users := dict_pop "NEST" view) in *.
  assert (dict_mem (DeviceManager.name m) users = false) as Hnew'.
  { unfold users. now apply dict_mem_pop. }
  rewrite Hview in H.
  pose proof (add_after_read _ _ _ _ m H Hs HN) as Ha.
  assert (holds (fst (add_manager m w))
                (dict_set (DeviceManager.name m) (PyDeviceManager m) users)) as H1.
  { rewrite Ha. cbn [fst]. apply holds_persisted;
      [apply dict_set_nonempty | now apply current_shape_set | now apply NoDup_keys_set]. }
  pose proof (base_url_after_add w _ m Hb) as Hb1.
  destruct (remove_on_held _ _ b (DeviceManager.name m) H1 Hb1 HN) as [Hr H2].
  rewrite (dict_pop_set_absent _ _ _ Hnew') in H2.
  split; [now rewrite Ha|]. split; [assumption|]. split; [assumption|].
  rewrite Hview. now apply (managers_on_held _ _ b H2), base_url_after_remove.
Qed.

(** X7: on a store whose [managers] read succeeds (legacy files included),
    a second [add_manager] under the same unreserved name overwrites the
    first: the devices file ends up with the same text as after adding the
    second manager alone, the encoding of the user mapping with that one
    entry set (in particular adding the same manager twice is adding it
    once). *)
Theorem add_manager_overwrites (w w0 : world) (view : pydict) (m1 m2 : DeviceManager.t) :
  managers w = (w0, Ok view) ->
  DeviceManager.name m1 = DeviceManager.name m2 ->
  DeviceManager.name m2 <> "NEST" ->
  DeviceManager.name m2 <> "DEFAULT" ->
  file devices_cache (disk (fst (add_manager m2 (fst (add_manager m1 w))))) =
    Some (json_dumps (PyDict (dict_set (DeviceManager.name m2) (PyDeviceManager m2)
                                       (dict_pop "NEST" view)))) /\
  file devices_cache (disk (fst (add_manager m2 w))) =
    Some (json_dumps (PyDict (dict_set (DeviceManager.name m2) (PyDeviceManager m2)
                                       (dict_pop "NEST" view)))).
Proof.
  intros H Hsame HN HD.
  assert (DeviceManager.name m1 <> "NEST") as HN1 by congruence.
  assert (DeviceManager.name m1 <> "DEFAULT") as HD1 by congruence.
  destruct (managers_view_shape _ _ _ H) as (b & Hb & Hview & Hs & Hnd & _).
  set (users := dict_pop "NEST" view) in *.
  rewrite Hview in H.
  pose proof (add_after_read _ _ _ _ m1 H Hs HN1) as Ha1.
  assert (holds (fst (add_manager m1 w))
                (dict_set (DeviceManager.name m1) (PyDeviceManager m1) users)) as H1.
  { rewrite Ha1. cbn [fst]. apply holds_persisted;
      [apply dict_set_nonempty | now apply current_shape_set | now apply NoDup_keys_set]. }
  pose proof (base_url_after_add w _ m1 Hb) as Hb1.
  rewrite (add_on_held_eq _ _ b m2 H1 Hb1 HN HD).
  rewrite (add_after_read _ _ _ _ m2 H Hs HN).
  rewrite Hsame, dict_set_set. after_write. now rewrite !file_set_same.
Qed.

End HeldStore.

(* ================================================================== *)
(** * Failures of the reads *)

Section ReadFailures.
Context {C : Core}.

(** X8: a non-empty text that does not decode makes the tokens, the
    connected-device and the base-URL read raise [JSONDecodeError]; none of
    them touches the file or logs anything, so the failure repeats until
    the file is overwritten or deleted. *)
Theorem undecodable_file_raises (w : world) (s : string) :
  str_falsy s = false ->
  json_loads s = None ->
  (file tokens_cache (disk w) = Some s -> tokens w = (w, Raise JSONDecodeError)) /\
  (file connected_cache (disk w) = Some s ->
   connected_device w = (w, Raise JSONDecodeError)) /\
  (file urls_cache (disk w) = Some s -> base_url w = (w, Raise JSONDecodeError)).
Proof.
  intros Hs Hl. repeat split; intros Hf.
  - unfold tokens, bind, read_text, loads. now rewrite Hf, Hs, Hl.
  - unfold connected_device, bind, read_text, loads. now rewrite Hf, Hs, Hl.
  - unfold base_url, bind, read_text, loads. now rewrite Hf, Hs, Hl.
Qed.

Lemma managers_unreadable w s e b :
  base_url w = (w, Ok (PyBaseURLs b)) ->
  file devices_cache (disk w) = Some s ->
  devices_error s = Some e ->
  managers w = (w, Raise e).
Proof.
  intros Hb Hf He. unfold managers, bind. rewrite Hb.
  unfold getattr_NEST, ret, read_text. rewrite Hf. unfold loads.
  unfold devices_error in He.
  destruct (json_loads s) as [v|]; [|now inversion He].
  destruct v; inversion He; reflexivity.
Qed.

(** X9: when the devices file holds a text that does not decode (the empty
    text included) or that decodes to something other than a dict,
    [managers], [add_manager] and [remove_manager] all raise the same
    exception ([JSONDecodeError], [TypeError] for a list, [AttributeError]
    otherwise) and leave files and log untouched: nothing can be added or
    removed until the file is replaced. *)
Theorem unreadable_devices_file_blocks_partition (w : world) (s : string) (e : exn)
        (b : BaseURLs.t) :
  base_url w = (w, Ok (PyBaseURLs b)) ->
  file devices_cache (disk w) = Some s ->
  devices_error s = Some e ->
  managers w = (w, Raise e) /\
  (forall m, add_manager m w = (w, Raise e)) /\
  (forall name, remove_manager name w = (w, Raise e)).
Proof.
  intros Hb Hf He. pose proof (managers_unreadable w s e b Hb Hf He) as H.
  split; [assumption|]. split; intros x.
  - now apply add_manager_raises.
  - now apply remove_manager_raises.
Qed.

Lemma managers_nest_error w e :
  nest_error (snd (base_url w)) = Some e -> managers w = (w, Raise e).
Proof.
  intros He. unfold managers, bind. pose proof (base_url_state w) as Hst.
  destruct (base_url w) as [w0 r]. simpl in Hst, He. subst w0.
  destruct r as [v|e0]; [|now inversion He].
  destruct v; inversion He; reflexivity.
Qed.

(** X10: the device-manager partition depends on the base-URL file: when the
    base-URL read raises, or returns a value that is not a [BaseURLs]
    record, [managers], [add_manager] and [remove_manager] raise that
    exception (respectively [AttributeError]) before the devices file is
    even looked at, and change nothing. *)
Theorem base_url_failure_blocks_managers (w : world) (e : exn) :
  nest_error (snd (base_url w)) = Some e ->
  managers w = (w, Raise e) /\
  (forall m, add_manager m w = (w, Raise e)) /\
  (forall name, remove_manager name w = (w, Raise e)).
Proof.
  intros He. pose proof (managers_nest_error w e He) as H.
  split; [assumption|]. split; intros x.
  - now apply add_manager_raises.
  - now apply remove_manager_raises.
Qed.

(** X11: [remove_manager("NEST")] never returns normally, on any store: it
    does what the read does and then raises, with [KeyError("NEST")]
    whenever the read itself succeeds, and it writes or deletes nothing
    beyond the read's own rewrite. *)
Theorem remove_NEST_never_returns (w : world) :
  (exists e, snd (remove_manager "NEST" w) = Raise e) /\
  fst (remove_manager "NEST" w) = fst (managers w) /\
  (forall view, snd (managers w) = Ok view ->
                snd (remove_manager "NEST" w) = Raise (KeyError "NEST")).
Proof.
  destruct (managers w) as [w0 [view|e]] eqn:H.
  - rewrite (remove_manager_NEST_raises _ _ _ H). cbn [fst snd].
    split; [now eexists|]. split; [reflexivity|]. reflexivity.
  - rewrite (remove_manager_raises _ _ _ "NEST" H). cbn [fst snd].
    split; [now eexists|]. split; [reflexivity|]. discriminate.
Qed.

(** X12: whatever the devices file stores, the view of a successful read
    maps ["NEST"] to the entry computed from the current base URLs, has no
    key ["DEFAULT"], no bare-string value and no repeated key. *)
Theorem managers_view_invariants (w w' : world) (view : pydict) :
  managers w = (w', Ok view) ->
  exists b,
    base_url w = (w, Ok (PyBaseURLs b)) /\
    dict_get "NEST" view = Some (PyDeviceManager (DeviceManager.mk "NEST" (BaseURLs.NEST b))) /\
    dict_mem "DEFAULT" view = false /\
    structured view = true /\
    NoDup (dict_keys view).
Proof.
  intros H. destruct (managers_view_facts _ _ _ H) as (b & Hb & Hg & _ & HD & HS & Hnd & _).
  exists b. auto.
Qed.

(** X13: what migration does to each entry: under a key other than
    ["DEFAULT"] and ["NEST"] a bare address becomes the manager record of
    that key and address, any other value is kept, and a missing key stays
    missing; the two reserved keys are gone; migrating twice is migrating
    once. *)
Theorem migrate_lookup (d : pydict) (k : string) :
  k <> "DEFAULT" ->
  k <> "NEST" ->
  (forall u, dict_get k d = Some (PyStr u) ->
             dict_get k (migrate d) = Some (PyDeviceManager (DeviceManager.mk k u))) /\
  (forall v, dict_get k d = Some v -> isinstance_str v = false ->
             dict_get k (migrate d) = Some v) /\
  (dict_get k d = None -> dict_get k (migrate d) = None) /\
  dict_get "DEFAULT" (migrate d) = None /\
  dict_get "NEST" (migrate d) = None /\
  migrate (migrate d) = migrate d.
Proof.
  intros HD HN.
  assert (dict_get k (migrate d) = option_map (rebuilt k) (dict_get k d)) as E.
  { unfold migrate. rewrite dict_get_rebuild.
    rewrite !dict_get_pop_other by congruence. reflexivity. }
  rewrite E. repeat split.
  - intros u ->. reflexivity.
  - intros v -> Hv. simpl. unfold rebuilt, rebuild_entry. simpl. now destruct v.
  - intros ->. reflexivity.
  - apply dict_get_None_mem, migrate_lacks_DEFAULT.
  - apply dict_get_None_mem, migrate_lacks_NEST.
  - apply migrate_current_shape, migrate_is_current.
Qed.

End ReadFailures.

(* ================================================================== *)
(** * Reads after writes *)

Section ReadsAfterWrites.
Context {C : Core} (laws : CoreLaws C).

(** X14: a second read right after a successful one returns the same view
    and leaves every file as the first read left it: what the first read
    wrote is already migrated. *)
Theorem managers_read_is_idempotent (w w1 : world) (view : pydict) :
  managers w = (w1, Ok view) ->
  snd (managers w1) = Ok view /\
  disk (fst (managers w1)) = disk w1.
Proof.
  intros H. apply managers_Ok_inv in H as (b & Hb & Hcases).
  destruct Hcases as [(Hf & -> & ->)|(s & d & Hf & Hl & Ht & -> & ->)].
  - rewrite (managers_absent w b Hb Hf). now split.
  - assert (base_url (persisted (migrate d) w) =
            (persisted (migrate d) w, Ok (PyBaseURLs b))) as Hb1.
    { apply (base_url_frame w); [assumption|]. after_write.
      now rewrite file_set_other by discriminate. }
    assert (file devices_cache (disk (persisted (migrate d) w)) =
            Some (json_dumps (PyDict (migrate d)))) as Hf1.
    { after_write. apply file_set_same. }
    rewrite (managers_present _ b _ (migrate d) Hb1 Hf1 (loads_dumps C laws _)).
    rewrite (migrate_current_shape _ (migrate_is_current d)), Ht. cbn [fst snd].
    split; [reflexivity|]. after_write. now apply set_file_id.
Qed.

(** X15: after a [managers] read, an [add_manager] of a manager not named
    ["NEST"], or a [remove_manager] that returns normally, the devices file
    is absent or holds a non-empty mapping. *)
Theorem normal_return_leaves_nonempty_mapping (w : world) :
  (forall view, snd (managers w) = Ok view -> absent_or_nonempty (fst (managers w))) /\
  (forall m, DeviceManager.name m <> "NEST" -> snd (add_manager m w) = Ok tt ->
             absent_or_nonempty (fst (add_manager m w))) /\
  (forall name, snd (remove_manager name w) = Ok tt ->
                absent_or_nonempty (fst (remove_manager name w))).
Proof.
  assert (forall d w0, dict_truthy d = true -> absent_or_nonempty (persisted d w0)) as Hp.
  { intros d w0 Ht. unfold absent_or_nonempty. after_write. rewrite file_set_same.
    exists d. split; [apply (loads_dumps C laws) | assumption]. }
  repeat split.
  - intros view Hv. destruct (managers w) as [w1 r] eqn:H. simpl in Hv. subst r.
    cbn [fst]. apply managers_Ok_inv in H as (b & Hb & Hcases).
    destruct Hcases as [(Hf & -> & _)|(s & d & _ & _ & Ht & -> & _)].
    + unfold absent_or_nonempty. now rewrite Hf.
    + now apply Hp.
  - intros m HN Ha. destruct (managers w) as [w0 [view|e]] eqn:H.
    + rewrite (add_manager_eval _ _ _ m H). cbn [fst]. apply Hp.
      apply (dict_truthy_mem (DeviceManager.name m)).
      rewrite dict_mem_pop_other by congruence.
      rewrite dict_mem_set, String.eqb_refl. reflexivity.
    + rewrite (add_manager_raises _ _ _ m H) in Ha. discriminate.
  - intros name Hr. destruct (managers w) as [w0 [view|e]] eqn:H.
    + destruct (String.eqb_spec name "NEST") as [->|Hne].
      { rewrite (remove_manager_NEST_raises _ _ _ H) in Hr. discriminate. }
      rewrite (remove_manager_eval _ _ _ _ H Hne). cbn [fst].
      destruct (dict_truthy _) eqn:Ht; [now apply Hp | exact I].
    + rewrite (remove_manager_raises _ _ _ name H) in Hr. discriminate.
Qed.

Lemma base_url_after_set custom w :
  base_url (fst (set_base_url custom w)) =
    (fst (set_base_url custom w), Ok (PyBaseURLs custom)).
Proof.
  unfold base_url, set_base_url, bind, read_text, write_text. cbn [fst disk].
  rewrite file_set_same. cbn iota beta.
  now rewrite (str_falsy_dumps laws), (loads_json_dumps laws).
Qed.

(** X16: for every [BaseURLs] value, setting the base URLs and reading them
    back returns exactly that value; the read changes nothing. *)
Theorem base_url_set_then_get (custom : BaseURLs.t) (w : world) :
  snd (set_base_url custom w) = Ok tt /\
  base_url (fst (set_base_url custom w)) =
    (fst (set_base_url custom w), Ok (PyBaseURLs custom)).
Proof. split; [reflexivity | apply base_url_after_set]. Qed.

(** X17: the synthetic entry is recomputed on every read: after
    [base_url = custom], every successful [managers] read maps ["NEST"] to
    [DeviceManager("NEST", custom.NEST)], and with no devices file the read
    returns exactly that entry. *)
Theorem synthetic_follows_base_url (custom : BaseURLs.t) (w : world) :
  (forall w2 view,
      managers (fst (set_base_url custom w)) = (w2, Ok view) ->
      dict_get "NEST" view =
        Some (PyDeviceManager (DeviceManager.mk "NEST" (BaseURLs.NEST custom)))) /\
  (file devices_cache (disk w) = None ->
   managers (fst (set_base_url custom w)) =
     (fst (set_base_url custom w), Ok [synthetic custom])).
Proof.
  pose proof (base_url_after_set custom w) as Hb. split.
  - intros w2 view H.
    destruct (managers_view_facts _ _ _ H) as (b & Hb' & Hg & _).
    rewrite Hg. assert (b = custom) by congruence. now subst b.
  - intros Hf. apply managers_absent; [assumption|].
    unfold set_base_url, write_text. cbn [fst disk].
    now rewrite file_set_other by discriminate.
Qed.

(** X18: for every [Device], setting the connected device and reading it back
    returns that device, with no warning and the file kept; after setting
    [None] the file is gone and the read returns [None]. *)
Theorem connected_device_set_then_get (d : Device.t) (w : world) :
  (snd (set_connected_device (Some d) w) = Ok tt /\
   connected_device (fst (set_connected_device (Some d) w)) =
     (fst (set_connected_device (Some d) w), Ok (PyDevice d))) /\
  (snd (set_connected_device None w) = Ok tt /\
   file connected_cache (disk (fst (set_connected_device None w))) = None /\
   connected_device (fst (set_connected_device None w)) =
     (fst (set_connected_device None w), Ok PyNone)).
Proof.
  split; split; try reflexivity.
  - unfold connected_device, set_connected_device, bind, read_text, write_text.
    cbn [fst disk]. rewrite file_set_same. cbn iota beta.
    rewrite (str_falsy_dumps laws), (loads_json_dumps laws). reflexivity.
  - split.
    + unfold set_connected_device, unlink. cbn [fst disk]. apply file_set_same.
    + unfold connected_device, set_connected_device, bind, read_text, unlink.
      cbn [fst disk]. now rewrite file_set_same.
Qed.

End ReadsAfterWrites.

(* ================================================================== *)
(** * Reserved keys after a run, from any devices file *)

Lemma has_key_same_file {C : Core} k w w' :
  file devices_cache (disk w') = file devices_cache (disk w) ->
  disk_has_key k w' -> disk_has_key k w.
Proof. intros E (s & d & Hf & H). exists s, d. now rewrite <- E. Qed.

Lemma no_key_absent {C : Core} k w :
  file devices_cache (disk w) = None -> ~ disk_has_key k w.
Proof. intros Hf (s & d & Hf' & _). congruence. Qed.

Lemma no_key_unreadable {C : Core} k w s e :
  file devices_cache (disk w) = Some s ->
  devices_error s = Some e ->
  ~ disk_has_key k w.
Proof.
  intros Hf He (s' & d & Hf' & Hl & _).
  assert (s' = s) by congruence. subst s'.
  unfold devices_error in He. rewrite Hl in He. discriminate.
Qed.

Lemma run_snoc {C : Core} ops o w : run (ops ++ [o]) w = step o (run ops w).
Proof. unfold run. now rewrite fold_left_app. Qed.

Lemma last_devices_op_snoc ops o :
  last_devices_op (ops ++ [o]) = if is_devices_op o then Some o else last_devices_op ops.
Proof. unfold last_devices_op. now rewrite fold_left_app. Qed.

Section ReservedKeysAfterRun.
Context {C : Core} (laws : CoreLaws C).

Lemma no_key_persisted k d w :
  dict_mem k d = false -> ~ disk_has_key k (persisted d w).
Proof.
  intros H (s & d' & Hf & Hl & Hm). revert Hf. after_write. rewrite file_set_same.
  intros Hf. injection Hf as <-. rewrite (loads_dumps C laws) in Hl.
  injection Hl as <-. congruence.
Qed.

(** With readable base URLs a read leaves neither reserved key on disk,
    whatever the devices file held and whether the read returns or raises. *)
Lemma managers_strips k w :
  urls_readable w ->
  k = "NEST" \/ k = "DEFAULT" ->
  ~ disk_has_key k (fst (managers w)).
Proof.
  intros [b Hb] Hk.
  destruct (file devices_cache (disk w)) as [s|] eqn:Hf.
  - destruct (devices_error s) as [e|] eqn:He.
    + rewrite (managers_unreadable w s e b Hb Hf He). cbn [fst].
      now apply (no_key_unreadable k w s e).
    + unfold devices_error in He.
      destruct (json_loads s) as [v|] eqn:Hl; [|discriminate].
      destruct v; try discriminate.
      rewrite (managers_present w b s d Hb Hf Hl). cbn [fst].
      apply no_key_persisted.
      destruct Hk as [->| ->]; [apply migrate_lacks_NEST | apply migrate_lacks_DEFAULT].
  - rewrite (managers_absent w b Hb Hf). cbn [fst]. now apply no_key_absent.
Qed.

Lemma add_manager_strips m w :
  urls_readable w ->
  ~ disk_has_key "NEST" (fst (add_manager m w)) /\
  (DeviceManager.name m <> "DEFAULT" -> ~ disk_has_key "DEFAULT" (fst (add_manager m w))).
Proof.
  intros Hu.
  pose proof (managers_strips "NEST" w Hu (or_introl eq_refl)) as HN.
  pose proof (managers_strips "DEFAULT" w Hu (or_intror eq_refl)) as HD.
  destruct (managers w) as [w0 [view|e]] eqn:H; cbn [fst] in HN, HD.
  - rewrite (add_manager_eval _ _ _ m H). cbn [fst]. split.
    + apply no_key_persisted, dict_mem_pop_same.
    + intros Hne. apply no_key_persisted.
      destruct (managers_view_facts _ _ _ H) as (b & _ & _ & _ & Hd & _).
      rewrite dict_mem_pop_other by discriminate.
      rewrite dict_mem_set, Hd. apply orb_false_iff. split; [|reflexivity].
      now apply String.eqb_neq.
  - rewrite (add_manager_raises _ _ _ m H). cbn [fst]. now split.
Qed.

Lemma remove_manager_strips k name w :
  urls_readable w ->
  k = "NEST" \/ k = "DEFAULT" ->
  ~ disk_has_key k (fst (remove_manager name w)).
Proof.
  intros Hu Hk. pose proof (managers_strips k w Hu Hk) as Hm.
  destruct (managers w) as [w0 [view|e]] eqn:H; cbn [fst] in Hm.
  2:{ now rewrite (remove_manager_raises _ _ _ name H). }
  destruct (String.eqb_spec name "NEST") as [->|Hne].
  { now rewrite (remove_manager_NEST_raises _ _ _ H). }
  rewrite (remove_manager_eval _ _ _ _ H Hne). cbn [fst].
  destruct (dict_truthy _); [|now apply no_key_absent].
  apply no_key_persisted.
  destruct Hk as [->| ->]; [apply dict_mem_pop_same|].
  destruct (managers_view_facts _ _ _ H) as (b & _ & _ & _ & Hd & _).
  rewrite dict_mem_pop_other by discriminate. now apply dict_mem_pop.
Qed.

Lemma step_devices_strips o w :
  urls_readable w ->
  is_devices_op o = true ->
  ~ disk_has_key "NEST" (step o w) /\
  (adds_DEFAULT o = false -> ~ disk_has_key "DEFAULT" (step o w)).
Proof.
  intros Hu Ho. destruct o; try discriminate; cbn [step adds_DEFAULT].
  - split; [|intros _]; apply managers_strips; auto.
  - destruct (add_manager_strips manager w Hu) as [HN HD]. split; [assumption|].
    intros E. apply HD. now apply String.eqb_neq.
  - split; [|intros _]; apply remove_manager_strips; auto.
Qed.

Lemma urls_readable_step o w : urls_readable w -> urls_readable (step o w).
Proof.
  intros Hu. destruct (step_effect o w) as (_ & _ & _ & Hframe).
  destruct o as [ |t| |m|n| |d| |b0]; cbn [partition_of] in Hframe;
    try (apply (urls_readable_frame w); [apply Hframe; discriminate | assumption]).
  - cbn [step]. now rewrite base_url_state.
  - cbn [step]. now apply urls_readable_set.
Qed.

Lemma urls_readable_run ops : forall w, urls_readable w -> urls_readable (run ops w).
Proof.
  unfold run. induction ops as [|o ops IH]; intros w Hu; simpl; [assumption|].
  now apply IH, urls_readable_step.
Qed.

(** C7 (as amended): on a store whose base-URL read succeeds, whatever the
    devices file holds beforehand (legacy files with the keys ["DEFAULT"]
    or ["NEST"] included), after every sequence of store operations,
    failed ones included, that contains a device-manager operation, the
    stored mapping has no key ["NEST"], and it has no key ["DEFAULT"]
    unless the last device-manager operation of the sequence is
    [add_manager] of a manager named ["DEFAULT"]; a sequence with no
    device-manager operation leaves the devices file as it was.  In every
    case the next [managers] read leaves neither key on disk. *)
Theorem reserved_keys_stay_off_disk (ops : list op) (w : world) :
  urls_readable w ->
  match last_devices_op ops with
  | Some o =>
      ~ disk_has_key "NEST" (run ops w) /\
      (adds_DEFAULT o = false -> ~ disk_has_key "DEFAULT" (run ops w))
  | None => file devices_cache (disk (run ops w)) = file devices_cache (disk w)
  end /\
  ~ disk_has_key "NEST" (fst (managers (run ops w))) /\
  ~ disk_has_key "DEFAULT" (fst (managers (run ops w))).
Proof.
  intros Hu. split.
  - induction ops as [|o ops IH] using rev_ind; [reflexivity|].
    rewrite run_snoc, last_devices_op_snoc.
    destruct (is_devices_op o) eqn:Ho.
    + apply step_devices_strips; [now apply urls_readable_run | assumption].
    + assert (file devices_cache (disk (step o (run ops w))) =
              file devices_cache (disk (run ops w))) as Hsame.
      { destruct (step_effect o (run ops w)) as (_ & _ & _ & Hframe).
        apply Hframe. intros E. unfold is_devices_op in Ho.
        rewrite <- E, path_eqb_refl in Ho. discriminate. }
      destruct (last_devices_op ops) as [o'|].
      * destruct IH as [HN HD]. split.
        -- intros H. apply HN. now apply (has_key_same_file _ _ _ Hsame).
        -- intros E H. apply (HD E). now apply (has_key_same_file _ _ _ Hsame).
      * now rewrite Hsame.
  - pose proof (urls_readable_run ops w Hu) as Hu'.
    split; apply managers_strips; auto.
Qed.

End ReservedKeysAfterRun.

(* ================================================================== *)
(** * Further concrete scenarios *)

Lemma holds_foo_world : holds foo_world [("foo", PyDeviceManager foo_manager)].
Proof.
  unfold holds. cbn. repeat split. repeat constructor. simpl. tauto.
Qed.

Lemma holds_two_world :
  holds two_world [("foo", PyDeviceManager foo_manager); ("bar", PyDeviceManager bar_manager)].
Proof.
  unfold holds. cbn. repeat split.
  repeat constructor; simpl; intuition discriminate.
Qed.

Lemma run_leaves_other_partitions_witness :
  forallb (fun o => negb (path_eqb (partition_of o) tokens_cache)) other_session = true /\
  file tokens_cache (disk (run other_session tokens_world)) =
    file tokens_cache (disk tokens_world).
Proof.
  split; [reflexivity|].
  exact (run_leaves_other_partitions (C := ref_core) other_session tokens_world
           tokens_cache eq_refl).
Defined.

Lemma run_refines_dict_witness :
  CoreLaws ref_core /\
  forallb well_named good_session = true /\
  urls_readable fresh /\
  holds fresh [] /\
  holds (run good_session fresh) [("bar", PyDeviceManager bar_manager)] /\
  exists b,
    base_url (run good_session fresh) = (run good_session fresh, Ok (PyBaseURLs b)) /\
    snd (managers (run good_session fresh)) =
      Ok [synthetic b; ("bar", PyDeviceManager bar_manager)].
Proof.
  split; [exact ref_core_laws|]. split; [reflexivity|].
  assert (urls_readable fresh) as Hu by (now exists BaseURLs_default).
  split; [exact Hu|]. split; [reflexivity|].
  exact (run_refines_dict ref_core_laws good_session fresh [] eq_refl Hu eq_refl).
Defined.

Lemma remove_last_manager_deletes_file_witness :
  managers legacy_world =
    (fst (managers legacy_world),
     Ok [synthetic BaseURLs_default; ("bar", PyDeviceManager bar_manager)]) /\
  "bar" <> "NEST" /\
  dict_pop "NEST" (dict_pop "bar" [synthetic BaseURLs_default;
                                   ("bar", PyDeviceManager bar_manager)]) = [] /\
  snd (remove_manager "bar" legacy_world) = Ok tt /\
  file devices_cache (disk (fst (remove_manager "bar" legacy_world))) = None.
Proof.
  assert (managers legacy_world =
          (fst (managers legacy_world),
           Ok [synthetic BaseURLs_default; ("bar", PyDeviceManager bar_manager)])) as Hm
    by reflexivity.
  assert ("bar" <> "NEST") as HN by discriminate.
  split; [exact Hm|]. split; [exact HN|]. split; [reflexivity|].
  destruct (remove_last_manager_deletes_file (C := ref_core) legacy_world _ _ "bar"
              Hm HN eq_refl) as (H1 & H2 & _).
  exact (conj H1 H2).
Defined.

Lemma remove_manager_then_managers_witness :
  CoreLaws ref_core /\
  holds two_world [("foo", PyDeviceManager foo_manager); ("bar", PyDeviceManager bar_manager)] /\
  "foo" <> "NEST" /\
  snd (remove_manager "foo" two_world) = Ok tt /\
  snd (managers (fst (remove_manager "foo" two_world))) =
    Ok [synthetic BaseURLs_default; ("bar", PyDeviceManager bar_manager)].
Proof.
  split; [exact ref_core_laws|]. split; [exact holds_two_world|].
  assert ("foo" <> "NEST") as HN by discriminate.
  split; [exact HN|].
  destruct (remove_manager_then_managers ref_core_laws two_world _ BaseURLs_default "foo"
              holds_two_world eq_refl HN) as (H1 & H2 & _).
  exact (conj H1 H2).
Defined.

Lemma add_then_remove_restores_witness :
  CoreLaws ref_core /\
  managers legacy_world =
    (fst (managers legacy_world),
     Ok [synthetic BaseURLs_default; ("bar", PyDeviceManager bar_manager)]) /\
  DeviceManager.name foo_manager <> "NEST" /\
  DeviceManager.name foo_manager <> "DEFAULT" /\
  dict_mem "foo" [synthetic BaseURLs_default; ("bar", PyDeviceManager bar_manager)] = false /\
  snd (managers (fst (remove_manager "foo" (fst (add_manager foo_manager legacy_world))))) =
    Ok [synthetic BaseURLs_default; ("bar", PyDeviceManager bar_manager)].
Proof.
  split; [exact ref_core_laws|].
  assert (managers legacy_world =
          (fst (managers legacy_world),
           Ok [synthetic BaseURLs_default; ("bar", PyDeviceManager bar_manager)])) as Hm
    by reflexivity.
  assert (DeviceManager.name foo_manager <> "NEST") as HN by discriminate.
  assert (DeviceManager.name foo_manager <> "DEFAULT") as HD by discriminate.
  split; [exact Hm|]. split; [exact HN|]. split; [exact HD|]. split; [reflexivity|].
  destruct (add_then_remove_restores ref_core_laws legacy_world _ _ foo_manager
              Hm HN HD eq_refl) as (_ & _ & _ & H).
  exact H.
Defined.

Lemma add_manager_overwrites_witness :
  CoreLaws ref_core /\
  managers legacy_world =
    (fst (managers legacy_world),
     Ok [synthetic BaseURLs_default; ("bar", PyDeviceManager bar_manager)]) /\
  DeviceManager.name (DeviceManager.mk "foo" "http://old") = DeviceManager.name foo_manager /\
  file devices_cache
       (disk (fst (add_manager foo_manager
                     (fst (add_manager (DeviceManager.mk "foo" "http://old") legacy_world))))) =
    file devices_cache (disk (fst (add_manager foo_manager legacy_world))).
Proof.
  split; [exact ref_core_laws|].
  assert (managers legacy_world =
          (fst (managers legacy_world),
           Ok [synthetic BaseURLs_default; ("bar", PyDeviceManager bar_manager)])) as Hm
    by reflexivity.
  split; [exact Hm|]. split; [reflexivity|].
  assert (DeviceManager.name foo_manager <> "NEST") as HN by discriminate.
  assert (DeviceManager.name foo_manager <> "DEFAULT") as HD by discriminate.
  destruct (add_manager_overwrites ref_core_laws legacy_world _ _
              (DeviceManager.mk "foo" "http://old") foo_manager Hm eq_refl HN HD)
    as [H1 H2].
  exact (eq_trans H1 (eq_sym H2)).
Defined.

Lemma undecodable_file_raises_witness :
  str_falsy "junk" = false /\
  json_loads "junk" = None /\
  tokens junk_world = (junk_world, Raise JSONDecodeError) /\
  connected_device junk_world = (junk_world, Raise JSONDecodeError) /\
  base_url junk_world = (junk_world, Raise JSONDecodeError).
Proof.
  split; [reflexivity|]. split; [reflexivity|].
  destruct (undecodable_file_raises (C := ref_core) junk_world "junk" eq_refl eq_refl)
    as (H1 & H2 & H3).
  exact (conj (H1 eq_refl) (conj (H2 eq_refl) (H3 eq_refl))).
Defined.

Lemma unreadable_devices_file_blocks_partition_witness :
  base_url list_world = (list_world, Ok (PyBaseURLs BaseURLs_default)) /\
  devices_error (json_dumps (PyList [PyStr "foo"])) = Some TypeError /\
  managers list_world = (list_world, Raise TypeError) /\
  add_manager foo_manager list_world = (list_world, Raise TypeError) /\
  remove_manager "foo" list_world = (list_world, Raise TypeError).
Proof.
  split; [reflexivity|]. split; [reflexivity|].
  destruct (unreadable_devices_file_blocks_partition (C := ref_core) list_world
              (RefCodec.dumps (PyList [PyStr "foo"])) TypeError BaseURLs_default
              eq_refl eq_refl eq_refl) as (H1 & H2 & H3).
  exact (conj H1 (conj (H2 foo_manager) (H3 "foo"))).
Defined.

Lemma base_url_failure_blocks_managers_witness :
  nest_error (snd (base_url junk_world)) = Some JSONDecodeError /\
  managers junk_world = (junk_world, Raise JSONDecodeError) /\
  add_manager foo_manager junk_world = (junk_world, Raise JSONDecodeError) /\
  remove_manager "foo" junk_world = (junk_world, Raise JSONDecodeError).
Proof.
  split; [reflexivity|].
  destruct (base_url_failure_blocks_managers (C := ref_core) junk_world JSONDecodeError
              eq_refl) as (H1 & H2 & H3).
  exact (conj H1 (conj (H2 foo_manager) (H3 "foo"))).
Defined.

Lemma managers_view_invariants_witness :
  snd (managers legacy_world) =
    Ok [synthetic BaseURLs_default; ("bar", PyDeviceManager bar_manager)] /\
  exists b,
    base_url legacy_world = (legacy_world, Ok (PyBaseURLs b)) /\
    dict_get "NEST" [synthetic BaseURLs_default; ("bar", PyDeviceManager bar_manager)] =
      Some (PyDeviceManager (DeviceManager.mk "NEST" (BaseURLs.NEST b))) /\
    dict_mem "DEFAULT" [synthetic BaseURLs_default; ("bar", PyDeviceManager bar_manager)] = false.
Proof.
  split; [reflexivity|].
  assert (managers legacy_world =
          (fst (managers legacy_world),
           Ok [synthetic BaseURLs_default; ("bar", PyDeviceManager bar_manager)])) as Hm
    by reflexivity.
  destruct (managers_view_invariants (C := ref_core) legacy_world _ _ Hm)
    as (b & H1 & H2 & H3 & _).
  exists b. exact (conj H1 (conj H2 H3)).
Defined.

Lemma migrate_lookup_witness :
  "bar" <> "DEFAULT" /\ "bar" <> "NEST" /\
  dict_get "bar" (migrate [("DEFAULT", PyStr "z"); ("bar", PyStr "http://y")]) =
    Some (PyDeviceManager (DeviceManager.mk "bar" "http://y")) /\
  dict_get "DEFAULT" (migrate [("DEFAULT", PyStr "z"); ("bar", PyStr "http://y")]) = None.
Proof.
  assert ("bar" <> "DEFAULT") as HD by discriminate.
  assert ("bar" <> "NEST") as HN by discriminate.
  split; [exact HD|]. split; [exact HN|].
  destruct (migrate_lookup [("DEFAULT", PyStr "z"); ("bar", PyStr "http://y")] "bar" HD HN)
    as (H1 & _ & _ & H2 & _).
  exact (conj (H1 "http://y" eq_refl) H2).
Defined.

Lemma managers_read_is_idempotent_witness :
  CoreLaws ref_core /\
  snd (managers legacy_world) =
    Ok [synthetic BaseURLs_default; ("bar", PyDeviceManager bar_manager)] /\
  snd (managers (fst (managers legacy_world))) =
    Ok [synthetic BaseURLs_default; ("bar", PyDeviceManager bar_manager)] /\
  disk (fst (managers (fst (managers legacy_world)))) = disk (fst (managers legacy_world)).
Proof.
  split; [exact ref_core_laws|]. split; [reflexivity|].
  assert (managers legacy_world =
          (fst (managers legacy_world),
           Ok [synthetic BaseURLs_default; ("bar", PyDeviceManager bar_manager)])) as Hm
    by reflexivity.
  exact (managers_read_is_idempotent ref_core_laws legacy_world _ _ Hm).
Defined.

Lemma normal_return_leaves_nonempty_mapping_witness :
  CoreLaws ref_core /\
  snd (remove_manager "ghost" foo_world) = Ok tt /\
  absent_or_nonempty (fst (remove_manager "ghost" foo_world)) /\
  snd (remove_manager "foo" foo_world) = Ok tt /\
  absent_or_nonempty (fst (remove_manager "foo" foo_world)).
Proof.
  split; [exact ref_core_laws|].
  destruct (normal_return_leaves_nonempty_mapping ref_core_laws foo_world) as (_ & _ & H).
  exact (conj eq_refl (conj (H "ghost" eq_refl) (conj eq_refl (H "foo" eq_refl)))).
Defined.

Lemma base_url_set_then_get_witness :
  CoreLaws ref_core /\
  base_url (fst (set_base_url custom_urls fresh)) =
    (fst (set_base_url custom_urls fresh), Ok (PyBaseURLs custom_urls)).
Proof.
  split; [exact ref_core_laws|].
  exact (proj2 (base_url_set_then_get ref_core_laws custom_urls fresh)).
Defined.

Lemma synthetic_follows_base_url_witness :
  CoreLaws ref_core /\
  file devices_cache (disk fresh) = None /\
  managers (fst (set_base_url custom_urls fresh)) =
    (fst (set_base_url custom_urls fresh),
     Ok [("NEST", PyDeviceManager (DeviceManager.mk "NEST" "http://my-nest"))]).
Proof.
  split; [exact ref_core_laws|]. split; [reflexivity|].
  exact (proj2 (synthetic_follows_base_url ref_core_laws custom_urls fresh) eq_refl).
Defined.

Lemma connected_device_set_then_get_witness :
  CoreLaws ref_core /\
  connected_device (fst (set_connected_device (Some (Device.mk "gpu0" foo_manager)) fresh)) =
    (fst (set_connected_device (Some (Device.mk "gpu0" foo_manager)) fresh),
     Ok (PyDevice (Device.mk "gpu0" foo_manager))) /\
  connected_device (fst (set_connected_device None fresh)) =
    (fst (set_connected_device None fresh), Ok PyNone).
Proof.
  split; [exact ref_core_laws|].
  destruct (connected_device_set_then_get ref_core_laws (Device.mk "gpu0" foo_manager) fresh)
    as [[_ H1] [_ [_ H2]]].
  exact (conj H1 H2).
Defined.

Lemma reserved_keys_stay_off_disk_witness :
  CoreLaws ref_core /\
  urls_readable legacy_world /\
  disk_has_key "DEFAULT" legacy_world /\
  last_devices_op legacy_session = Some (RemoveManager "ghost") /\
  ~ disk_has_key "NEST" (run legacy_session legacy_world) /\
  ~ disk_has_key "DEFAULT" (run legacy_session legacy_world) /\
  ~ disk_has_key "DEFAULT" (fst (managers (run legacy_session legacy_world))).
Proof.
  split; [exact ref_core_laws|].
  assert (urls_readable legacy_world) as Hu by (now exists BaseURLs_default).
  split; [exact Hu|]. split; [eexists _, _; repeat split|]. split; [reflexivity|].
  assert ((~ disk_has_key "NEST" (run legacy_session legacy_world) /\
           (adds_DEFAULT (RemoveManager "ghost") = false ->
            ~ disk_has_key "DEFAULT" (run legacy_session legacy_world))) /\
          ~ disk_has_key "NEST" (fst (managers (run legacy_session legacy_world))) /\
          ~ disk_has_key "DEFAULT" (fst (managers (run legacy_session legacy_world))))
    as [[H1 H2] [_ H3]]
    by exact (reserved_keys_stay_off_disk ref_core_laws legacy_session legacy_world Hu).
  exact (conj H1 (conj (H2 eq_refl) H3)).
Defined.
